(** * Weather-Prediction-App: the historical aggregation engine

    A shallow embedding of [utils.py], [weather_metrics.py], [weather_sql.py]
    and the analysis path of [app.py], with the properties of the
    specification stated and proved over it.

    Conventions.
    - Python [int] is [Z]; a finite Python/numpy float is the rational number
      it denotes ([Q]).  Comparisons of floats are exact; an arithmetic
      operation on floats is the exact operation followed by rounding to
      the nearest value of the format (module [Float]): binary64 for a
      Python [float], binary32 for the [numpy.float32] columns of the
      five-year frame.  NaN, infinities and overflow are outside the
      model.
    - Code that can raise returns [res]; code that also mutates the record
      store, the Streamlit session state or an output stream runs in the
      state-and-exception monad [M].
    - Library calls (pandas, calendar, datetime, SQLAlchemy, the Open-Meteo
      client) are modelled by small functions next to their first use. *)

From Stdlib Require Import ZArith QArith Qminmax Qround Qabs Qpower Lia Lqa.
From Stdlib Require Import List String.
From Stdlib Require Import Bool.
From Stdlib Require Import Permutation Sorted.
Import ListNotations.
Local Open Scope Z_scope.

(* ================================================================= *)
(** ** Python values, exceptions and the exception monad *)

Module Py.

Inductive exn : Type :=
| TypeError
| ValueError
| IndexError
| ZeroDivisionError
| AttributeError (attr : string)
| OpenMeteoRequestsError (msg : string)
| SQLAlchemyError (msg : string)
| RerunException.

(** [except Exception] catches everything but the script-control
    exceptions of Streamlit, which derive from [BaseException]. *)
Definition is_Exception (e : exn) : bool :=
  match e with
  | RerunException => false
  | _ => true
  end.

(** [str(e)].  An exception of a library carries its message; a missing
    attribute is reported with the class of the object, which in this
    program is always [SimpleWeatherData].  For the other exceptions of the
    interpreter the text depends on the place that raised them; the model
    keeps one text for each: that of [datetime] for a day the month does not
    have, of an index into an empty array, of a division of integers, of
    an ordering of an [int] against a [str]. *)
Definition str_exn (e : exn) : string :=
  match e with
  | TypeError => "'<=' not supported between instances of 'int' and 'str'"
  | ValueError => "day is out of range for month"
  | IndexError => "index 0 is out of bounds for axis 0 with size 0"
  | ZeroDivisionError => "integer division or modulo by zero"
  | AttributeError a =>
      "'SimpleWeatherData' object has no attribute '" ++ a ++ "'"
  | OpenMeteoRequestsError m => m
  | SQLAlchemyError m => m
  | RerunException => EmptyString
  end%string.

Inductive res (A : Type) : Type :=
| Ok (a : A)
| Raise (e : exn).
Arguments Ok {A} a.
Arguments Raise {A} e.

Definition bind {A B} (c : res A) (k : A -> res B) : res B :=
  match c with
  | Ok a => k a
  | Raise e => Raise e
  end.

(** [try: c  except Exception as e: h e] *)
Definition try_except {A} (c : res A) (h : exn -> res A) : res A :=
  match c with
  | Ok a => Ok a
  | Raise e => if is_Exception e then h e else Raise e
  end.

(** The values a dynamically typed argument can hold. *)
Inductive pyval : Type :=
| PyInt (z : Z)
| PyFloat (q : Q)
| PyStr (s : string)
| PyNone.

(** [z <= v] and [v <= z] for an integer literal [z]: numbers are compared
    by value, anything else raises [TypeError]. *)
Definition le_int_val (z : Z) (v : pyval) : res bool :=
  match v with
  | PyInt x => Ok (z <=? x)
  | PyFloat q => Ok (Qle_bool (inject_Z z) q)
  | PyStr _ | PyNone => Raise TypeError
  end.

Definition le_val_int (v : pyval) (z : Z) : res bool :=
  match v with
  | PyInt x => Ok (x <=? z)
  | PyFloat q => Ok (Qle_bool q (inject_Z z))
  | PyStr _ | PyNone => Raise TypeError
  end.

(** [v == z]: never raises, values of another type are unequal. *)
Definition eq_val_int (v : pyval) (z : Z) : bool :=
  match v with
  | PyInt x => x =? z
  | PyFloat q => Qeq_bool q (inject_Z z)
  | PyStr _ | PyNone => false
  end.

(** [v in [z1, z2, ...]] *)
Definition val_in (v : pyval) (l : list Z) : bool :=
  existsb (eq_val_int v) l.

(** [v % n] for a positive integer literal [n]: floor modulus on numbers;
    on a string [%] is formatting and fails with [TypeError]. *)
Definition mod_val_int (v : pyval) (n : Z) : res pyval :=
  match v with
  | PyInt x => Ok (PyInt (x mod n))
  | PyFloat q =>
      Ok (PyFloat (q - inject_Z n * inject_Z (Qfloor (q / inject_Z n)))%Q)
  | PyStr _ | PyNone => Raise TypeError
  end.

(** [getattr(o, name)] on an object given by its attribute dictionary. *)
Definition obj : Type := list (string * pyval).

Fixpoint getattr (o : obj) (name : string) : res pyval :=
  match o with
  | [] => Raise (AttributeError name)
  | (k, v) :: rest => if String.eqb k name then Ok v else getattr rest name
  end.

(** State and exceptions: a computation maps the state before to an outcome
    and the state after; what was written before an exception stays. *)
Definition M (S A : Type) : Type := S -> res A * S.

Definition ret {S A} (a : A) : M S A := fun s => (Ok a, s).

Definition raise {S A} (e : exn) : M S A := fun s => (Raise e, s).

Definition bindM {S A B} (c : M S A) (k : A -> M S B) : M S B :=
  fun s =>
    match c s with
    | (Ok a, s') => k a s'
    | (Raise e, s') => (Raise e, s')
    end.

Definition lift_res {S A} (c : res A) : M S A := fun s => (c, s).

Definition modify {S} (f : S -> S) : M S unit := fun s => (Ok tt, f s).

(** Run a computation on a component of the state. *)
Definition zoom {S T A} (get : S -> T) (set : T -> S -> S) (c : M T A)
    : M S A :=
  fun s => let (r, t) := c (get s) in (r, set t s).

(** [try: c  except Exception as e: h e] *)
Definition try_exceptM {S A} (c : M S A) (h : exn -> M S A) : M S A :=
  fun s =>
    match c s with
    | (Ok a, s') => (Ok a, s')
    | (Raise e, s') => if is_Exception e then h e s' else (Raise e, s')
    end.

(** [try: c  finally: f]: [f] runs on every path; the outcome of [c]
    stands unless [f] itself raises. *)
Definition try_finallyM {S A} (c : M S A) (f : M S unit) : M S A :=
  fun s =>
    let (r, s') := c s in
    match f s' with
    | (Ok _, s'') => (r, s'')
    | (Raise e, s'') => (Raise e, s'')
    end.

End Py.
Import Py.

Declare Scope res_scope.
Delimit Scope res_scope with res.
Notation "x <- c ;; k" := (Py.bind c (fun x => k))
(at level 61, c at next level, right associativity) : res_scope.
Notation "x <~ c ;; k" := (Py.bindM c (fun x => k))
(at level 61, c at next level, right associativity) : res_scope.
Notation "c ;; k" := (Py.bindM c (fun _ => k))
(at level 61, right associativity) : res_scope.
Local Open Scope res_scope.

(* ================================================================= *)
(** ** Streamlit: the messages shown to the user *)

Module Streamlit.

Inductive UiMsg : Type :=
| StError (text : string)
| StSuccess (text : string).

(** [st.error(text)] and [st.success(text)] *)
Definition st_error (text : string) : M (list UiMsg) unit :=
  modify (fun ui => ui ++ [StError text]).

Definition st_success (text : string) : M (list UiMsg) unit :=
  modify (fun ui => ui ++ [StSuccess text]).

End Streamlit.
Import Streamlit.

(* ================================================================= *)
(** ** Floating point

    A finite float is the rational number it denotes.  [round fmt q] is the
    value of the format nearest to [q], ties going to the even significand
    (IEEE 754 round-to-nearest-even, the only rounding mode Python and
    numpy use); below the normal range the spacing stays that of the
    smallest exponent (gradual underflow). *)

Module Float.

(** Significand bits, and the exponent of the smallest positive value. *)
Record format : Type := mkFormat { precision : Z; emin : Z }.

Definition binary32 : format := mkFormat 24 (-149).
Definition binary64 : format := mkFormat 53 (-1074).

(** [2 ^ e] for any integer [e]. *)
Definition pow2 (e : Z) : Q := (2 ^ e)%Q.

(** [floor (log2 q)] for a positive [q]. *)
Definition ilog2 (q : Q) : Z :=
  let e := Z.log2 (Qnum q) - Z.log2 (Zpos (Qden q)) in
  if Qle_bool (pow2 e) q then e else e - 1.

(** The nearest integer, a tie going to the even one. *)
Definition round_half_even (q : Q) : Z :=
  let f := Qfloor q in
  match (q - inject_Z f ?= 1 # 2)%Q with
  | Lt => f
  | Gt => f + 1
  | Eq => if Z.even f then f else f + 1
  end.

(** The exponent of the unit in the last place of [q]. *)
Definition ulp_exponent (fmt : format) (q : Q) : Z :=
  Z.max (ilog2 (Qabs q) - precision fmt + 1) (emin fmt).

Definition round (fmt : format) (q : Q) : Q :=
  if Qeq_bool q 0 then 0%Q
  else
    let e := ulp_exponent fmt q in
    (inject_Z (round_half_even (q / pow2 e)) * pow2 e)%Q.

(** [a + b], [a - b] and [a / b] in the format. *)
Definition add (fmt : format) (a b : Q) : Q := round fmt (a + b).
Definition sub (fmt : format) (a b : Q) : Q := round fmt (a - b).
Definition div (fmt : format) (a b : Q) : Q := round fmt (a / b).

(** The value of the format is one of its own: it rounds to itself. *)
Definition representable (fmt : format) (q : Q) : Prop :=
  (round fmt q == q)%Q.

(** The literal [0.1] of the source: the binary64 value nearest to one
    tenth, a little above it. *)
Definition float_0_1 : Q := 3602879701896397 # 36028797018963968.

End Float.
Import Float.

(* ================================================================= *)
(** ** The summary record

    The fourteen values that travel together through the program: the
    attributes of a [WeatherMetrics] instance, the columns of a
    [WeatherData] row, the keys of the [weather_dict] kept in the Streamlit
    session state and the attributes read by the functions of [utils.py]. *)

Module Data.

Record WeatherRecord : Type := mkWeatherRecord {
  latitude : Q;
  longitude : Q;
  month : Z;
  day : Z;
  year : Z;
  avg_temp : Q;
  min_temp : Q;
  max_temp : Q;
  avg_wind : Q;
  min_wind : Q;
  max_wind : Q;
  sum_precip : Q;
  min_precip : Q;
  max_precip : Q
}.

(** [x > c] and [x < c] on floats. *)
Definition gt (x c : Q) : bool := negb (Qle_bool x c).
Definition lt (x c : Q) : bool := negb (Qle_bool c x).

End Data.
Import Data.

(* ================================================================= *)
(** ** utils.py: date validator, suitability score, CSV export *)

Module Utils.

(** [lo <= v <= hi], evaluated left to right with short circuit. *)
Definition between (lo : Z) (v : pyval) (hi : Z) : res bool :=
  a <- le_int_val lo v ;;
  if a then le_val_int v hi else Ok false.

(** [calendar.isleap]:
    [year % 4 == 0 and (year % 100 != 0 or year % 400 == 0)] *)
Definition isleap (year : pyval) : res bool :=
  r4 <- mod_val_int year 4 ;;
  if eq_val_int r4 0 then
    r100 <- mod_val_int year 100 ;;
    if negb (eq_val_int r100 0) then Ok true
    else
      r400 <- mod_val_int year 400 ;;
      Ok (eq_val_int r400 0)
  else Ok false.

(** The body of the [try] block of [validate_date]. *)
Definition validate_date_body (month day year : pyval) : res bool :=
  m_ok <- between 1 month 12 ;;
  if negb m_ok then Ok false else
  y_ok <- between 1940 year 2030 ;;
  if negb y_ok then Ok false else
  if val_in month [1; 3; 5; 7; 8; 10; 12] then
    d_ok <- between 1 day 31 ;;
    if negb d_ok then Ok false else Ok true
  else if val_in month [4; 6; 9; 11] then
    d_ok <- between 1 day 30 ;;
    if negb d_ok then Ok false else Ok true
  else
    leap <- isleap year ;;
    if leap then
      d_ok <- between 1 day 29 ;;
      if negb d_ok then Ok false else Ok true
    else
      d_ok <- between 1 day 28 ;;
      if negb d_ok then Ok false else Ok true.

(** [validate_date]: the body under [except Exception: return False]. *)
Definition validate_date (month day year : pyval) : res bool :=
  try_except (validate_date_body month day year) (fun _ => Ok false).

(** The calendar rules in the words of the specification. *)
Definition isLeapYear (y : Z) : Prop :=
  (4 | y) /\ (~ (100 | y) \/ (400 | y)).

Definition day_in_bounds (m d y : Z) : Prop :=
  (In m [1; 3; 5; 7; 8; 10; 12] /\ 1 <= d <= 31) \/
  (In m [4; 6; 9; 11] /\ 1 <= d <= 30) \/
  (m = 2 /\ isLeapYear y /\ 1 <= d <= 29) \/
  (m = 2 /\ ~ isLeapYear y /\ 1 <= d <= 28).

Definition valid_date (m d y : Z) : Prop :=
  1 <= m <= 12 /\ 1940 <= y <= 2030 /\ day_in_bounds m d y.

(** A value denotes an integer when it is an [int], or a float with an
    integral value. *)
Definition as_integer (v : pyval) : option Z :=
  match v with
  | PyInt z => Some z
  | PyFloat q =>
      if Qeq_bool q (inject_Z (Qfloor q)) then Some (Qfloor q) else None
  | PyStr _ | PyNone => None
  end.

(** What the specification accepts: three integers forming a valid date;
    everything else is malformed. *)
Definition well_formed_date (month day year : pyval) : Prop :=
  exists m d y,
    as_integer month = Some m /\ as_integer day = Some d /\
    as_integer year = Some y /\ valid_date m d y.

Definition non_numeric (v : pyval) : Prop :=
  match v with
  | PyStr _ | PyNone => True
  | PyInt _ | PyFloat _ => False
  end.

(** [calculate_weather_suitability_score]: the running [score] after each of
    the three blocks, then the clamp.  The literals [1.0] and [0.5] are the
    numbers they name; [0.1] is [float_0_1]. *)
Definition score_after_temperature (weather_data : WeatherRecord) : Z :=
  let score := 100 in
  if lt (avg_temp weather_data) 60 || gt (avg_temp weather_data) 90
  then score - 30
  else if lt (avg_temp weather_data) 70 || gt (avg_temp weather_data) 80
  then score - 15
  else score.

Definition score_after_wind (weather_data : WeatherRecord) : Z :=
  let score := score_after_temperature weather_data in
  if gt (max_wind weather_data) 25 then score - 25
  else if gt (max_wind weather_data) 15 then score - 15
  else if gt (max_wind weather_data) 10 then score - 10
  else score.

Definition score_after_precip (weather_data : WeatherRecord) : Z :=
  let score := score_after_wind weather_data in
  if gt (sum_precip weather_data) 1 then score - 20
  else if gt (sum_precip weather_data) (1 # 2) then score - 10
  else if gt (sum_precip weather_data) float_0_1 then score - 5
  else score.

Definition calculate_weather_suitability_score
    (weather_data : WeatherRecord) : Z :=
  Z.max 0 (score_after_precip weather_data).

(** The deductions in the words of the specification; its [0.1] is the
    float literal of the code. *)
Definition tempDeduction (w : WeatherRecord) : Z :=
  if Qlt_le_dec (avg_temp w) 60 then 30
  else if Qlt_le_dec 90 (avg_temp w) then 30
  else if Qlt_le_dec (avg_temp w) 70 then 15
  else if Qlt_le_dec 80 (avg_temp w) then 15
  else 0.

Definition windDeduction (w : WeatherRecord) : Z :=
  if Qlt_le_dec 25 (max_wind w) then 25
  else if Qlt_le_dec 15 (max_wind w) then 15
  else if Qlt_le_dec 10 (max_wind w) then 10
  else 0.

Definition precipDeduction (w : WeatherRecord) : Z :=
  if Qlt_le_dec 1 (sum_precip w) then 20
  else if Qlt_le_dec (1 # 2) (sum_precip w) then 10
  else if Qlt_le_dec float_0_1 (sum_precip w) then 5
  else 0.

(** A summary with the given average temperature, maximum wind and total
    precipitation, every other field zero. *)
Definition summary_of (avg_t max_w sum_p : Q) : WeatherRecord :=
  {| latitude := 0; longitude := 0; month := 1; day := 1; year := 2000;
     avg_temp := avg_t; min_temp := 0; max_temp := 0;
     avg_wind := 0; min_wind := 0; max_wind := max_w;
     sum_precip := sum_p; min_precip := 0; max_precip := 0 |}.

(** [format_weather_data].  [repr] renders one cell of the CSV. *)
Definition csv_header : list string :=
  ["Latitude"; "Longitude"; "Month"; "Day"; "Year";
   "Average_Temperature_F"; "Minimum_Temperature_F"; "Maximum_Temperature_F";
   "Average_Wind_Speed_mph"; "Minimum_Wind_Speed_mph";
   "Maximum_Wind_Speed_mph"; "Total_Precipitation_inches";
   "Minimum_Precipitation_inches"; "Maximum_Precipitation_inches"]%string.

Definition csv_attributes : list string :=
  ["latitude"; "longitude"; "month"; "day"; "year";
   "avg_temp"; "min_temp"; "max_temp"; "avg_wind"; "min_wind"; "max_wind";
   "sum_precip"; "min_precip"; "max_precip"]%string.

(** Evaluate the attribute reads of the dict literal, in order. *)
Fixpoint read_attributes (weather_data : obj) (names : list string)
    : res (list pyval) :=
  match names with
  | [] => Ok []
  | n :: rest =>
      v <- getattr weather_data n ;;
      vs <- read_attributes weather_data rest ;;
      Ok (v :: vs)
  end.

(** [df.to_csv(index=False)] of a one-row frame: the header line and the
    row, comma separated, each ended by a newline. *)
Definition newline : string := String (Ascii.ascii_of_nat 10) EmptyString.

Definition to_csv (repr : pyval -> string) (header : list string)
    (cells : list pyval) : string :=
  (String.concat "," header ++ newline ++
   String.concat "," (map repr cells) ++ newline)%string.

Definition format_weather_data (repr : pyval -> string) (weather_data : obj)
    : M (list UiMsg) string :=
  try_exceptM
    (cells <~ lift_res (read_attributes weather_data csv_attributes) ;;
     ret (to_csv repr csv_header cells))
    (fun e =>
       st_error ("Error formatting data for export: " ++ str_exn e) ;;
       ret EmptyString)%string.

End Utils.

(* ================================================================= *)
(** ** weather_metrics.py: fetcher, five-year aggregator, statistics *)

Module Weather_metrics.

(** *** Dates and timestamps *)

Record Date : Type := mkDate { d_year : Z; d_month : Z; d_day : Z }.

Definition leap_year (y : Z) : bool :=
  (y mod 4 =? 0) && (negb (y mod 100 =? 0) || (y mod 400 =? 0)).

Definition days_in_month (y m : Z) : Z :=
  if existsb (Z.eqb m) [1; 3; 5; 7; 8; 10; 12] then 31
  else if existsb (Z.eqb m) [4; 6; 9; 11] then 30
  else if leap_year y then 29 else 28.

(** [datetime(year, month, day)]: [ValueError] unless the three numbers
    name a day of the proleptic Gregorian calendar, years 1 to 9999. *)
Definition datetime (y m d : Z) : res Date :=
  if (1 <=? y) && (y <=? 9999) && (1 <=? m) && (m <=? 12) &&
     (1 <=? d) && (d <=? days_in_month y m)
  then Ok (mkDate y m d)
  else Raise ValueError.

(** Days between 1970-01-01 and a civil date, and back: the conversions
    behind the upstream time base ([daily.Time()], seconds, UTC) and
    [pd.to_datetime(..., unit="s", utc=True)]. *)
Definition days_from_civil (dt : Date) : Z :=
  let y := if d_month dt <=? 2 then d_year dt - 1 else d_year dt in
  let era := y / 400 in
  let yoe := y - era * 400 in
  let mp := if 2 <? d_month dt then d_month dt - 3 else d_month dt + 9 in
  let doy := (153 * mp + 2) / 5 + d_day dt - 1 in
  let doe := yoe * 365 + yoe / 4 - yoe / 100 + doy in
  era * 146097 + doe - 719468.

Definition civil_from_days (z : Z) : Date :=
  let z := z + 719468 in
  let era := z / 146097 in
  let doe := z - era * 146097 in
  let yoe := (doe - doe / 1460 + doe / 36524 - doe / 146096) / 365 in
  let doy := doe - (365 * yoe + yoe / 4 - yoe / 100) in
  let mp := (5 * doy + 2) / 153 in
  let d := doy - (153 * mp + 2) / 5 + 1 in
  let m := if mp <? 10 then mp + 3 else mp - 9 in
  mkDate (if m <=? 2 then yoe + era * 400 + 1 else yoe + era * 400) m d.

Definition timestamp_of_date (dt : Date) : Z := days_from_civil dt * 86400.
Definition date_of_timestamp (t : Z) : Date := civil_from_days (t / 86400).

(** [pd.date_range(start, end, freq, inclusive="left")] on second counts:
    [start], [start + freq], ... for as long as [end] is not reached; with
    a zero frequency the number of periods is a division by zero. *)
Definition date_range (start stop freq : Z) : res (list Z) :=
  if freq =? 0 then Raise ZeroDivisionError
  else
    let n := Z.to_nat (- ((start - stop) / freq)) in
    Ok (map (fun k => start + Z.of_nat k * freq) (seq 0 n)).

(** *** The upstream archive *)

(** The query parameters that vary; units are constants of the request. *)
Record Request : Type := mkRequest {
  req_latitude : Q;
  req_longitude : Q;
  req_start_date : Date;
  req_end_date : Date;
  req_daily : list string
}.

(** [response.Daily()]: a time base and one array per requested variable,
    in request order. *)
Record Daily : Type := mkDaily {
  Time : Z;
  TimeEnd : Z;
  Interval : Z;
  Variables : list (list Q)
}.

(** What lies outside the program: the archive as seen through the cached,
    retrying client, and the clock. *)
Record Env : Type := mkEnv {
  weather_api : Request -> res (list Daily);
  now_year : Z
}.

(** [daily.Variables(i).ValuesAsNumpy()]: the array of the [i]-th variable
    of the response.  The reader does not check [i] against the number of
    variables: past the last one it decodes whatever bytes follow, which
    ends in a [TypeError] or a [struct.error] depending on those bytes.
    The model raises [TypeError]; no property below rests on which of the
    two it is. *)
Definition ValuesAsNumpy (daily : Daily) (i : nat) : res (list Q) :=
  match nth_error (Variables daily) i with
  | Some a => Ok a
  | None => Raise TypeError
  end.

(** [l[0]] *)
Definition item0 {A : Type} (l : list A) : res A :=
  match l with
  | x :: _ => Ok x
  | [] => Raise IndexError
  end.

(** The dict of columns, used both for one response ([daily_data]) and for
    the five-year series ([chosen_date_data], then the [DataFrame]). *)
Record Columns : Type := mkColumns {
  date : list Z;
  temperature_2m_max : list Q;
  temperature_2m_min : list Q;
  temperature_2m_mean : list Q;
  precipitation_sum : list Q;
  wind_speed_10m_max : list Q;
  wind_gusts_10m_max : list Q
}.

Definition daily_fields : list string :=
  ["temperature_2m_max"; "temperature_2m_min"; "temperature_2m_mean";
   "precipitation_sum"; "wind_speed_10m_max"; "wind_gusts_10m_max"]%string.

(** [chosen_date_data[key].append(x)], one function per key. *)
Definition append_date (c : Columns) (x : Z) : Columns :=
  mkColumns (date c ++ [x]) (temperature_2m_max c) (temperature_2m_min c)
    (temperature_2m_mean c) (precipitation_sum c) (wind_speed_10m_max c)
    (wind_gusts_10m_max c).

Definition append_temperature_2m_max (c : Columns) (x : Q) : Columns :=
  mkColumns (date c) (temperature_2m_max c ++ [x]) (temperature_2m_min c)
    (temperature_2m_mean c) (precipitation_sum c) (wind_speed_10m_max c)
    (wind_gusts_10m_max c).

Definition append_temperature_2m_min (c : Columns) (x : Q) : Columns :=
  mkColumns (date c) (temperature_2m_max c) (temperature_2m_min c ++ [x])
    (temperature_2m_mean c) (precipitation_sum c) (wind_speed_10m_max c)
    (wind_gusts_10m_max c).

Definition append_temperature_2m_mean (c : Columns) (x : Q) : Columns :=
  mkColumns (date c) (temperature_2m_max c) (temperature_2m_min c)
    (temperature_2m_mean c ++ [x]) (precipitation_sum c)
    (wind_speed_10m_max c) (wind_gusts_10m_max c).

Definition append_precipitation_sum (c : Columns) (x : Q) : Columns :=
  mkColumns (date c) (temperature_2m_max c) (temperature_2m_min c)
    (temperature_2m_mean c) (precipitation_sum c ++ [x])
    (wind_speed_10m_max c) (wind_gusts_10m_max c).

Definition append_wind_speed_10m_max (c : Columns) (x : Q) : Columns :=
  mkColumns (date c) (temperature_2m_max c) (temperature_2m_min c)
    (temperature_2m_mean c) (precipitation_sum c)
    (wind_speed_10m_max c ++ [x]) (wind_gusts_10m_max c).

Definition append_wind_gusts_10m_max (c : Columns) (x : Q) : Columns :=
  mkColumns (date c) (temperature_2m_max c) (temperature_2m_min c)
    (temperature_2m_mean c) (precipitation_sum c) (wind_speed_10m_max c)
    (wind_gusts_10m_max c ++ [x]).

Definition empty_columns : Columns := mkColumns [] [] [] [] [] [] [].

(** [for x in l: body], threading the loop state, stopping at the first
    exception. *)
Fixpoint for_in {A S : Type} (l : list A) (body : A -> S -> res S) (s : S)
    : res S :=
  match l with
  | [] => Ok s
  | x :: rest => s' <- body x s ;; for_in rest body s'
  end.

(** [range(1, 6)] *)
Definition range_1_6 : list Z := [1; 2; 3; 4; 5].

(** [numpy.float32(q)], and the arithmetic of that type. *)
Definition float32 (q : Q) : Q := round binary32 q.
Definition float32_add (a b : Q) : Q := add binary32 a b.
Definition float32_div (a b : Q) : Q := div binary32 a b.

(** pandas reductions of a column.  The values appended by the loop are
    [numpy.float32] scalars, so the columns of the frame are float32 and
    are reduced in that type: [sum] adds the values one after the other
    from zero, rounding after each addition; [mean] divides that sum by the
    number of values and rounds; [min] and [max] pick a value.  On the
    empty column pandas answers NaN for [min], [max] and [mean]; the model
    answers 0 there, a case the five-row frame never reaches. *)
Definition Series_sum (l : list Q) : Q := fold_left float32_add l 0%Q.

Definition Series_mean (l : list Q) : Q :=
  float32_div (Series_sum l) (inject_Z (Z.of_nat (List.length l))).

Definition Series_min (l : list Q) : Q :=
  match l with
  | [] => 0%Q
  | x :: rest => fold_left Qmin rest x
  end.

Definition Series_max (l : list Q) : Q :=
  match l with
  | [] => 0%Q
  | x :: rest => fold_left Qmax rest x
  end.

Definition calc_avg_temp (data : Columns) : Q :=
  Series_mean (temperature_2m_mean data).

Definition calc_wind_speed_max (data : Columns) : Q :=
  Series_max (wind_speed_10m_max data).

Definition calc_total_precip (data : Columns) : Q :=
  Series_sum (precipitation_sum data).

(** The attribute assignments of [fill_out_class], given the frame. *)
Definition fill_from (self : WeatherRecord) (chosen_date_data : Columns)
    : WeatherRecord :=
  {| latitude := latitude self;
     longitude := longitude self;
     month := month self;
     day := day self;
     year := year self;
     avg_temp := calc_avg_temp chosen_date_data;
     min_temp := Series_min (temperature_2m_min chosen_date_data);
     max_temp := Series_max (temperature_2m_max chosen_date_data);
     avg_wind := Series_mean (wind_speed_10m_max chosen_date_data);
     min_wind := Series_min (wind_speed_10m_max chosen_date_data);
     max_wind := calc_wind_speed_max chosen_date_data;
     sum_precip := calc_total_precip chosen_date_data;
     min_precip := Series_min (precipitation_sum chosen_date_data);
     max_precip := Series_max (precipitation_sum chosen_date_data) |}.

Section WithEnv.

Variable env : Env.

Definition call_api (self : WeatherRecord) (start_date end_date : Date)
    : res Columns :=
  let params :=
    mkRequest (latitude self) (longitude self) start_date end_date
              daily_fields in
  responses <- weather_api env params ;;
  response <- item0 responses ;;
  let daily := response in
  daily_temperature_2m_max <- ValuesAsNumpy daily 0 ;;
  daily_temperature_2m_min <- ValuesAsNumpy daily 1 ;;
  daily_temperature_2m_mean <- ValuesAsNumpy daily 2 ;;
  daily_precipitation_sum <- ValuesAsNumpy daily 3 ;;
  daily_wind_speed_10m_max <- ValuesAsNumpy daily 4 ;;
  daily_wind_gusts_10m_max <- ValuesAsNumpy daily 5 ;;
  dates <- date_range (Time daily) (TimeEnd daily) (Interval daily) ;;
  Ok {| date := dates;
        temperature_2m_max := daily_temperature_2m_max;
        temperature_2m_min := daily_temperature_2m_min;
        temperature_2m_mean := daily_temperature_2m_mean;
        precipitation_sum := daily_precipitation_sum;
        wind_speed_10m_max := daily_wind_speed_10m_max;
        wind_gusts_10m_max := daily_wind_gusts_10m_max |}.

(** One turn of the loop of [get_data_for_date]. *)
Definition loop_body (self : WeatherRecord) (i : Z)
    (chosen_date_data : Columns) : res Columns :=
  start_date <- datetime (now_year env - i) (month self) (day self) ;;
  let end_date := start_date in
  data_for_that_year <- call_api self start_date end_date ;;
  x <- item0 (date data_for_that_year) ;;
  let chosen_date_data := append_date chosen_date_data x in
  x <- item0 (temperature_2m_max data_for_that_year) ;;
  let chosen_date_data := append_temperature_2m_max chosen_date_data x in
  x <- item0 (temperature_2m_min data_for_that_year) ;;
  let chosen_date_data := append_temperature_2m_min chosen_date_data x in
  x <- item0 (temperature_2m_mean data_for_that_year) ;;
  let chosen_date_data := append_temperature_2m_mean chosen_date_data x in
  x <- item0 (precipitation_sum data_for_that_year) ;;
  let chosen_date_data := append_precipitation_sum chosen_date_data x in
  x <- item0 (wind_speed_10m_max data_for_that_year) ;;
  let chosen_date_data := append_wind_speed_10m_max chosen_date_data x in
  x <- item0 (wind_gusts_10m_max data_for_that_year) ;;
  let chosen_date_data := append_wind_gusts_10m_max chosen_date_data x in
  Ok chosen_date_data.

(** [pd.DataFrame(data=chosen_date_data)] keeps the columns as they are;
    they all have the length the loop gave them. *)
Definition get_data_for_date (self : WeatherRecord) : res Columns :=
  for_in range_1_6 (loop_body self) empty_columns.

Definition fill_out_class (self : WeatherRecord) : res WeatherRecord :=
  chosen_date_data <- get_data_for_date self ;;
  Ok (fill_from self chosen_date_data).

(** [WeatherMetrics(latitude, longitude, month, day, year)] *)
Definition WeatherMetrics (latitude longitude : Q) (month day year : Z)
    : res WeatherRecord :=
  fill_out_class
    (mkWeatherRecord latitude longitude month day year 0 0 0 0 0 0 0 0 0).

End WithEnv.

(** *** Vocabulary of the specification *)

(** One day's observation. *)
Record DailySample : Type := mkDailySample {
  s_date : Z;
  s_temperature_max : Q;
  s_temperature_min : Q;
  s_temperature_mean : Q;
  s_precipitation : Q;
  s_wind_speed_max : Q;
  s_wind_gusts_max : Q
}.

(** The series as a list of samples, row by row. *)
Definition series_of (rows : list DailySample) : Columns :=
  mkColumns (map s_date rows) (map s_temperature_max rows)
    (map s_temperature_min rows) (map s_temperature_mean rows)
    (map s_precipitation rows) (map s_wind_speed_max rows)
    (map s_wind_gusts_max rows).

(** The first day of a response, when it has one. *)
Definition first_day (data : Columns) : res DailySample :=
  d <- item0 (date data) ;;
  a <- item0 (temperature_2m_max data) ;;
  b <- item0 (temperature_2m_min data) ;;
  c <- item0 (temperature_2m_mean data) ;;
  p <- item0 (precipitation_sum data) ;;
  w <- item0 (wind_speed_10m_max data) ;;
  g <- item0 (wind_gusts_10m_max data) ;;
  Ok (mkDailySample d a b c p w g).

(** The single-day fetch of year [now_year - i] as the aggregator performs
    it: build the date, call the archive, take the first day. *)
Definition fetch_year (env : Env) (self : WeatherRecord) (i : Z)
    : res DailySample :=
  start_date <- datetime (now_year env - i) (month self) (day self) ;;
  data <- call_api env self start_date start_date ;;
  first_day data.

(** Number of days a response carries: the length of its time axis. *)
Definition days_of (data : Columns) : nat := List.length (date data).

Definition year_of_timestamp (t : Z) : Z := d_year (date_of_timestamp t).

(** Years of the entries, in series order. *)
Definition years_of (data : Columns) : list Z :=
  map year_of_timestamp (date data).

End Weather_metrics.

(* ================================================================= *)
(** ** weather_sql.py: the record store *)

Module Weather_sql.

(** The calls a session object receives, in order. *)
Inductive SessionCall : Type :=
| CallAdd
| CallCommit
| CallRollback
| CallQuery
| CallClose.

Record Session : Type := mkSession {
  pending : list WeatherRecord;
  calls : list SessionCall;
  closed : bool
}.

(** The table [weather_data] of [weather.db] with its autoincrement
    counter, the faults the engine will answer a commit or a query with,
    the session opened last, and what was printed. *)
Record Store : Type := mkStore {
  table : list (Z * WeatherRecord);
  next_id : Z;
  commit_fault : option exn;
  query_fault : option exn;
  session : Session;
  stdout : list string
}.

Definition set_session (f : Session -> Session) (st : Store) : Store :=
  mkStore (table st) (next_id st) (commit_fault st) (query_fault st)
          (f (session st)) (stdout st).

Definition called (c : SessionCall) (se : Session) : Session :=
  mkSession (pending se) (calls se ++ [c]) (closed se).

(** [self.Session()] *)
Definition new_session : M Store unit :=
  modify (set_session (fun _ => mkSession [] [] false)).

(** [session.add(data)] *)
Definition session_add (data : WeatherRecord) : M Store unit :=
  modify (set_session (fun se =>
    mkSession (pending se ++ [data]) (calls se ++ [CallAdd]) (closed se))).

(** Rows numbered from the counter on. *)
Fixpoint number_rows (n : Z) (rows : list WeatherRecord)
    : list (Z * WeatherRecord) :=
  match rows with
  | [] => []
  | r :: rest => (n, r) :: number_rows (n + 1) rest
  end.

(** [session.commit()]: the pending rows reach the table, or the engine's
    fault is raised and the table stays as it was. *)
Definition session_commit : M Store unit :=
  fun st =>
    let st := set_session (called CallCommit) st in
    match commit_fault st with
    | Some e => (Raise e, st)
    | None =>
        let rows := pending (session st) in
        (Ok tt,
         mkStore (table st ++ number_rows (next_id st) rows)
                 (next_id st + Z.of_nat (List.length rows))
                 (commit_fault st) (query_fault st)
                 (mkSession [] (calls (session st)) (closed (session st)))
                 (stdout st))
    end.

(** [session.rollback()] *)
Definition session_rollback : M Store unit :=
  modify (set_session (fun se =>
    mkSession [] (calls se ++ [CallRollback]) (closed se))).

(** [session.close()] *)
Definition session_close : M Store unit :=
  modify (set_session (fun se =>
    mkSession [] (calls se ++ [CallClose]) true)).

(** [session.query(WeatherData).filter(...).first()] and [.all()] *)
Definition query_first (keep : WeatherRecord -> bool)
    : M Store (option (Z * WeatherRecord)) :=
  fun st =>
    let st := set_session (called CallQuery) st in
    match query_fault st with
    | Some e => (Raise e, st)
    | None => (Ok (find (fun r => keep (snd r)) (table st)), st)
    end.

Definition query_all : M Store (list (Z * WeatherRecord)) :=
  fun st =>
    let st := set_session (called CallQuery) st in
    match query_fault st with
    | Some e => (Raise e, st)
    | None => (Ok (table st), st)
    end.

(** [print(line)] *)
Definition print (line : string) : M Store unit :=
  modify (fun st =>
    mkStore (table st) (next_id st) (commit_fault st) (query_fault st)
            (session st) (stdout st ++ [line])).

Definition insert_data (data : WeatherRecord) : M Store unit :=
  new_session ;;
  try_finallyM
    (try_exceptM
       (session_add data ;;
        session_commit)
       (fun e =>
          session_rollback ;;
          raise e))
    session_close.

Section Formatting.

(** [f"{x:.2f}"] and [f"{n}"] *)
Variable fmt2f : Q -> string.
Variable fmt_int : Z -> string.

Definition fetch (month day year : Z)
    : M Store (option (Z * WeatherRecord)) :=
  new_session ;;
  try_finallyM
    (try_exceptM
       (weather <~ query_first (fun r =>
            (Data.month r =? month) && (Data.day r =? day) &&
            (Data.year r =? year)) ;;
        match weather with
        | Some (_, w) =>
            print ("Location Latitude: " ++ fmt2f (latitude w) ++ "°") ;;
            print ("Location Longitude: " ++ fmt2f (longitude w) ++ "°") ;;
            print ("Event Date: " ++ fmt_int (Data.month w) ++ "-" ++
                   fmt_int (Data.day w) ++ "-" ++ fmt_int (Data.year w)) ;;
            print ("5-Year Average Temperature: " ++
                   fmt2f (avg_temp w) ++ "°F") ;;
            print ("5-Year Minimum Temperature: " ++
                   fmt2f (min_temp w) ++ "°F") ;;
            print ("5-Year Maximum Temperature: " ++
                   fmt2f (max_temp w) ++ "°F") ;;
            print ("5-Year Average Wind Speed: " ++
                   fmt2f (avg_wind w) ++ " mph") ;;
            print ("5-Year Minimum Wind Speed: " ++
                   fmt2f (min_wind w) ++ " mph") ;;
            print ("5-Year Maximum Wind Speed: " ++
                   fmt2f (max_wind w) ++ " mph") ;;
            print ("5-Year Sum Precipitation: " ++
                   fmt2f (sum_precip w) ++ " inches") ;;
            print ("5-Year Minimum Precipitation: " ++
                   fmt2f (min_precip w) ++ " inches") ;;
            print ("5-Year Maximum Precipitation: " ++
                   fmt2f (max_precip w) ++ " inches") ;;
            ret weather
        | None =>
            print "No data found for the specified date." ;;
            ret None
        end)
       (fun e =>
          print ("Error fetching data: " ++ str_exn e) ;;
          ret None))
    session_close.

End Formatting.

Definition get_all_records : M Store (list (Z * WeatherRecord)) :=
  new_session ;;
  try_finallyM
    (try_exceptM
       (records <~ query_all ;;
        ret records)
       (fun e =>
          print ("Error fetching all records: " ++ str_exn e) ;;
          ret []))
    session_close.

(** A store with the given rows and faults, nothing printed, no session
    used yet. *)
Definition store_of (rows : list (Z * WeatherRecord))
    (commit_fault query_fault : option exn) : Store :=
  mkStore rows (1 + Z.of_nat (List.length rows)) commit_fault query_fault
          (mkSession [] [] false) [].

End Weather_sql.

(* ================================================================= *)
(** ** app.py: the analysis path and the risk assessment *)

Module App.

Import Weather_metrics Weather_sql.

(** The three keys of [st.session_state] the program uses. *)
Record SessionState : Type := mkSessionState {
  analysis_complete : bool;
  weather_data : option WeatherRecord;
  metrics : option WeatherRecord
}.

Record AppState : Type := mkAppState {
  store : Store;
  session_state : SessionState;
  ui : list UiMsg
}.

Definition on_store {A} (c : M Store A) : M AppState A :=
  zoom store (fun t s => mkAppState t (session_state s) (ui s)) c.

Definition on_ui {A} (c : M (list UiMsg) A) : M AppState A :=
  zoom ui (fun t s => mkAppState (store s) (session_state s) t) c.

Definition set_state (f : SessionState -> SessionState) : M AppState unit :=
  modify (fun s => mkAppState (store s) (f (session_state s)) (ui s)).

(** [st.rerun()] leaves the script through an exception that
    [except Exception] does not catch. *)
Definition st_rerun : M AppState unit := raise RerunException.

Section WithEnv.

Variable env : Env.

Definition run_weather_analysis (latitude longitude : Q) (target_date : Date)
    : M AppState unit :=
  try_exceptM
    (metrics <~ lift_res
       (WeatherMetrics env latitude longitude (d_month target_date)
                       (d_day target_date) (d_year target_date)) ;;
     let weather_data :=
       {| Data.longitude := Data.longitude metrics;
          Data.latitude := Data.latitude metrics;
          month := month metrics;
          day := day metrics;
          year := year metrics;
          avg_temp := avg_temp metrics;
          min_temp := min_temp metrics;
          max_temp := max_temp metrics;
          avg_wind := avg_wind metrics;
          min_wind := min_wind metrics;
          max_wind := max_wind metrics;
          sum_precip := sum_precip metrics;
          min_precip := min_precip metrics;
          max_precip := max_precip metrics |} in
     on_store (insert_data weather_data) ;;
     let weather_dict :=
       {| Data.latitude := Data.latitude metrics;
          Data.longitude := Data.longitude metrics;
          month := month metrics;
          day := day metrics;
          year := year metrics;
          avg_temp := avg_temp metrics;
          min_temp := min_temp metrics;
          max_temp := max_temp metrics;
          avg_wind := avg_wind metrics;
          min_wind := min_wind metrics;
          max_wind := max_wind metrics;
          sum_precip := sum_precip metrics;
          min_precip := min_precip metrics;
          max_precip := max_precip metrics |} in
     set_state (fun ss =>
       mkSessionState (analysis_complete ss) (App.weather_data ss)
                      (Some metrics)) ;;
     set_state (fun ss =>
       mkSessionState (analysis_complete ss) (Some weather_dict)
                      (App.metrics ss)) ;;
     set_state (fun ss =>
       mkSessionState true (App.weather_data ss) (App.metrics ss)) ;;
     on_ui (st_success "✅ Analysis complete!") ;;
     st_rerun)
    (fun e =>
       on_ui (st_error ("❌ An error occurred during analysis: " ++
                        str_exn e)) ;;
       on_ui (st_error
                "Please check your internet connection and try again.")).

(** The branch of [main] behind the "Analyze Weather Data" button. *)
Definition analyze_clicked (latitude longitude : option Q)
    (target_date : Date) : M AppState unit :=
  match latitude, longitude with
  | Some lat, Some lon =>
      valid <~ lift_res
        (Utils.validate_date (PyInt (d_month target_date))
                             (PyInt (d_day target_date))
                             (PyInt (d_year target_date))) ;;
      if valid : bool
      then run_weather_analysis lat lon target_date
      else on_ui (st_error "Invalid date selected. Please check your input.")
  | _, _ => on_ui (st_error "Please provide valid coordinates.")
  end.

End WithEnv.

(** [SimpleWeatherData(data_dict)]: one attribute per key of the dict. *)
Definition SimpleWeatherData (data_dict : WeatherRecord) : obj :=
  [("latitude", PyFloat (latitude data_dict));
   ("longitude", PyFloat (longitude data_dict));
   ("month", PyInt (month data_dict));
   ("day", PyInt (day data_dict));
   ("year", PyInt (year data_dict));
   ("avg_temp", PyFloat (avg_temp data_dict));
   ("min_temp", PyFloat (min_temp data_dict));
   ("max_temp", PyFloat (max_temp data_dict));
   ("avg_wind", PyFloat (avg_wind data_dict));
   ("min_wind", PyFloat (min_wind data_dict));
   ("max_wind", PyFloat (max_wind data_dict));
   ("sum_precip", PyFloat (sum_precip data_dict));
   ("min_precip", PyFloat (min_precip data_dict));
   ("max_precip", PyFloat (max_precip data_dict))]%string.

(** [calculate_weather_risk]: the accumulator after each block, then the
    classification. *)
Record RiskAssessment : Type := mkRisk { level : string; description : string }.

Definition risk_after_temperature (weather_data : WeatherRecord) : Z :=
  let risk_factors := 0 in
  if gt (max_temp weather_data) 90 then risk_factors + 2
  else if gt (max_temp weather_data) 85 then risk_factors + 1
  else risk_factors.

Definition risk_after_wind (weather_data : WeatherRecord) : Z :=
  let risk_factors := risk_after_temperature weather_data in
  if gt (max_wind weather_data) 25 then risk_factors + 2
  else if gt (max_wind weather_data) 15 then risk_factors + 1
  else risk_factors.

Definition risk_after_precip (weather_data : WeatherRecord) : Z :=
  let risk_factors := risk_after_wind weather_data in
  if gt (sum_precip weather_data) 1 then risk_factors + 2
  else if gt (sum_precip weather_data) (1 # 2) then risk_factors + 1
  else risk_factors.

Definition calculate_weather_risk (weather_data : WeatherRecord)
    : RiskAssessment :=
  let risk_factors := risk_after_precip weather_data in
  if 4 <=? risk_factors then
    mkRisk "High" "Consider indoor alternatives"
  else if 2 <=? risk_factors then
    mkRisk "Medium" "Have backup plans ready"
  else
    mkRisk "Low" "Good conditions expected".

(** The accumulation in the words of the specification. *)
Definition tier (x upper lower : Q) : Z :=
  if Qlt_le_dec upper x then 2
  else if Qlt_le_dec lower x then 1
  else 0.

Definition risk_factors (w : WeatherRecord) : Z :=
  tier (max_temp w) 90 85 + tier (max_wind w) 25 15 +
  tier (sum_precip w) 1 (1 # 2).

(** A summary with the given maximum temperature, maximum wind and total
    precipitation, every other field zero. *)
Definition extremes (max_t max_w sum_p : Q) : WeatherRecord :=
  {| latitude := 0; longitude := 0; month := 1; day := 1; year := 2000;
     avg_temp := 0; min_temp := 0; max_temp := max_t;
     avg_wind := 0; min_wind := 0; max_wind := max_w;
     sum_precip := sum_p; min_precip := 0; max_precip := 0 |}.

End App.

(* ================================================================= *)
(** ** Auxiliary definitions and concrete scenarios *)

Import Utils Weather_metrics Weather_sql App.

(** On integers the validator is this boolean. *)
Definition valid_dateb (m d y : Z) : bool :=
  (1 <=? m) && (m <=? 12) && ((1940 <=? y) && (y <=? 2030)) &&
  ((1 <=? d) && (d <=? days_in_month y m)).

(** Appending one sample to every column of the series. *)
Definition append_sample (c : Columns) (s : DailySample) : Columns :=
  mkColumns (date c ++ [s_date s])
    (temperature_2m_max c ++ [s_temperature_max s])
    (temperature_2m_min c ++ [s_temperature_min s])
    (temperature_2m_mean c ++ [s_temperature_mean s])
    (precipitation_sum c ++ [s_precipitation s])
    (wind_speed_10m_max c ++ [s_wind_speed_max s])
    (wind_gusts_10m_max c ++ [s_wind_gusts_max s]).

(** The single-day fetches of the years [now_year - i], [i] along [l]. *)
Fixpoint fetch_years (env : Env) (self : WeatherRecord) (l : list Z)
    : res (list DailySample) :=
  match l with
  | [] => Ok []
  | i :: rest =>
      s <- fetch_year env self i ;;
      ss <- fetch_years env self rest ;;
      Ok (s :: ss)
  end.

(** The part of [call_api] that processes one response. *)
Definition read_daily (daily : Daily) : res Columns :=
  a <- ValuesAsNumpy daily 0 ;;
  b <- ValuesAsNumpy daily 1 ;;
  c <- ValuesAsNumpy daily 2 ;;
  p <- ValuesAsNumpy daily 3 ;;
  w <- ValuesAsNumpy daily 4 ;;
  g <- ValuesAsNumpy daily 5 ;;
  dates <- date_range (Time daily) (TimeEnd daily) (Interval daily) ;;
  Ok (mkColumns dates a b c p w g).

(** The request the aggregator sends for one calendar day. *)
Definition request_for (self : WeatherRecord) (dt : Date) : Request :=
  mkRequest (latitude self) (longitude self) dt dt daily_fields.

(** The archive answers the request for year [yr], same month and day as
    the target, and the first day of its answer is [smp]. *)
Definition answers (env : Env) (self : WeatherRecord) (yr : Z)
    (smp : DailySample) : Prop :=
  exists daily rest,
    weather_api env (request_for self (mkDate yr (month self) (day self)))
      = Ok (daily :: rest) /\
    (data <- read_daily daily ;; first_day data) = Ok smp.

(** The sum and the mean of five float32 values, written out: the values
    are added from left to right, starting from zero, each addition
    rounded to float32; the mean is that sum divided by five, rounded. *)
Definition float32_sum5 (a b c d e : Q) : Q :=
  float32_add
    (float32_add (float32_add (float32_add (float32_add 0 a) b) c) d) e.

Definition float32_mean5 (a b c d e : Q) : Q :=
  float32_div (float32_sum5 a b c d e) 5.

(** Minimum and maximum of a column, as properties. *)
Definition is_min_of (x : Q) (l : list Q) : Prop :=
  Forall (fun y => (x <= y)%Q) l /\ Exists (fun y => (x == y)%Q) l.

Definition is_max_of (x : Q) (l : list Q) : Prop :=
  Forall (fun y => (y <= x)%Q) l /\ Exists (fun y => (x == y)%Q) l.

(** The series with its gust column replaced. *)
Definition with_gusts (c : Columns) (g : list Q) : Columns :=
  mkColumns (date c) (temperature_2m_max c) (temperature_2m_min c)
    (temperature_2m_mean c) (precipitation_sum c) (wind_speed_10m_max c) g.

(** *** Scenarios *)

(** An archive that answers every day asked for with that one day; the
    observations are float32 values, the precipitation the ones nearest to
    0, 0.1, 0.2 and 0.3 inch. *)
Definition demo_daily (dt : Date) : Daily :=
  mkDaily (timestamp_of_date dt) (timestamp_of_date dt + 86400) 86400
    [[inject_Z (80 + d_year dt mod 7)];
     [inject_Z (60 + d_year dt mod 5)];
     [inject_Z (70 + d_year dt mod 3)];
     [float32 ((d_year dt mod 4) # 10)];
     [inject_Z (8 + d_year dt mod 6)];
     [inject_Z (15 + d_year dt mod 9)]].

Definition demo_api (r : Request) : res (list Daily) :=
  Ok [demo_daily (req_start_date r)].

Definition demo_env : Env := mkEnv demo_api 2026.

(** Miami, analysed for 23 June 2025, and for 29 February 2024. *)
Definition demo_self : WeatherRecord :=
  mkWeatherRecord (257743 # 10000) (-801937 # 10000) 6 23 2025
                  0 0 0 0 0 0 0 0 0.

Definition leap_self : WeatherRecord :=
  mkWeatherRecord (257743 # 10000) (-801937 # 10000) 2 29 2024
                  0 0 0 0 0 0 0 0 0.

Definition demo_sample (yr : Z) : DailySample :=
  mkDailySample (timestamp_of_date (mkDate yr 6 23))
    (inject_Z (80 + yr mod 7)) (inject_Z (60 + yr mod 5))
    (inject_Z (70 + yr mod 3)) (float32 ((yr mod 4) # 10))
    (inject_Z (8 + yr mod 6)) (inject_Z (15 + yr mod 9)).

(** An archive that answers a single-day request with two days. *)
Definition two_day_api (r : Request) : res (list Daily) :=
  let t := timestamp_of_date (req_start_date r) in
  Ok [mkDaily t (t + 2 * 86400) 86400
        [[81; 91]; [61; 71]; [72; 82]; [0; 1]; [9; 19]; [16; 26]]%Q].

Definition two_day_env : Env := mkEnv two_day_api 2026.

(** An archive that answers with no day at all. *)
Definition no_day_api (r : Request) : res (list Daily) :=
  let t := timestamp_of_date (req_start_date r) in
  Ok [mkDaily t t 86400 [[]; []; []; []; []; []]].

Definition no_day_env : Env := mkEnv no_day_api 2026.

(** An archive that cannot be reached for 2023. *)
Definition outage_api (r : Request) : res (list Daily) :=
  if d_year (req_start_date r) =? 2023
  then Raise (OpenMeteoRequestsError "failed to request")
  else demo_api r.

Definition outage_env : Env := mkEnv outage_api 2026.

(** The order the specification asks of the series: the years of its
    entries run from [now_year - 5] up to [now_year - 1]. *)
Definition year_ascending (env : Env) (df : Columns) : Prop :=
  years_of df = map (fun i => now_year env - i) [5; 4; 3; 2; 1].

(** What the specification asks of a single-day fetch: a response that
    does not carry exactly one day makes the fetch fail. *)
Definition rejects_other_than_one_day (env : Env) (self : WeatherRecord)
    (i : Z) : Prop :=
  forall dt data,
    datetime (now_year env - i) (month self) (day self) = Ok dt ->
    call_api env self dt dt = Ok data ->
    days_of data <> 1%nat ->
    exists e, fetch_year env self i = Raise e.

(** The instance as [__init__] leaves it before [fill_out_class]. *)
Definition new_instance (latitude longitude : Q) (target_date : Date)
    : WeatherRecord :=
  mkWeatherRecord latitude longitude (d_month target_date)
                  (d_day target_date) (d_year target_date)
                  0 0 0 0 0 0 0 0 0.

(** The application before any analysis, over an empty store. *)
Definition fresh_app : AppState :=
  mkAppState (store_of [] None None) (mkSessionState false None None) [].

(** A store whose engine refuses to commit, and one that refuses to
    answer queries. *)
Definition locked_store : Store :=
  store_of [] (Some (SQLAlchemyError "database is locked")) None.

Definition unreadable_store : Store :=
  store_of [] None (Some (SQLAlchemyError "no such table: weather_data")).

Definition empty_store : Store := store_of [] None None.

(** What the specification asks of the read paths: the caller of
    [get_all_records] can tell a failed read from an empty table by the
    value returned. *)
Definition read_failure_distinguishable : Prop :=
  forall (failing empty : Store) (e : exn),
    query_fault failing = Some e -> is_Exception e = true ->
    query_fault empty = None -> table empty = [] ->
    fst (get_all_records failing) <> fst (get_all_records empty).

(** ... and of the validator: an exception inside it does not end in the
    answer an ordinary invalid date gets. *)
Definition validator_failure_distinguishable : Prop :=
  forall month day year e,
    validate_date_body month day year = Raise e ->
    validate_date month day year <> Ok false.

(* ================================================================= *)
(** ** utils.py: recommendations *)

Module Recommendations.

Definition hot_text : string :=
  "üå°Ô∏è High temperatures expected - consider providing shade and hydration stations".

Definition cool_text : string :=
  "üß• Cool temperatures expected - inform guests to bring warm clothing".

Definition high_wind_text : string :=
  "üí® High wind speeds possible - secure decorations and avoid tall structures".

Definition moderate_wind_text : string :=
  "üé™ Moderate winds expected - ensure tents and displays are properly anchored".

Definition rain_text : string :=
  "‚òî Significant precipitation likely - have indoor backup plans ready".

Definition some_rain_text : string :=
  "üåßÔ∏è Some precipitation possible - consider covered areas or umbrellas".

Definition variation_text : string :=
  "üå°Ô∏è Large temperature variation expected - advise guests on layered clothing".

Definition favorable_text : string :=
  "‚úÖ Weather conditions appear favorable for outdoor activities".

(** [a - b] on Python floats. *)
Definition float_sub (a b : Q) : Q := sub binary64 a b.

(** [get_weather_recommendations], for a summary whose attributes are
    Python floats. *)
Definition get_weather_recommendations (weather_data : WeatherRecord)
    : list string :=
  let recommendations := [] in
  let recommendations :=
    if gt (avg_temp weather_data) 85 then recommendations ++ [hot_text]
    else if lt (avg_temp weather_data) 65 then recommendations ++ [cool_text]
    else recommendations in
  let recommendations :=
    if gt (max_wind weather_data) 20
    then recommendations ++ [high_wind_text]
    else if gt (max_wind weather_data) 10
    then recommendations ++ [moderate_wind_text]
    else recommendations in
  let recommendations :=
    if gt (sum_precip weather_data) (1 # 2)
    then recommendations ++ [rain_text]
    else if gt (sum_precip weather_data) float_0_1
    then recommendations ++ [some_rain_text]
    else recommendations in
  let recommendations :=
    if gt (float_sub (max_temp weather_data) (min_temp weather_data)) 20
    then recommendations ++ [variation_text]
    else recommendations in
  match recommendations with
  | [] => recommendations ++ [favorable_text]
  | _ :: _ => recommendations
  end.

(** Conditions under which no block of the function has anything to say. *)
Definition quiet (w : WeatherRecord) : Prop :=
  (65 <= avg_temp w /\ avg_temp w <= 85 /\ max_wind w <= 10 /\
   sum_precip w <= float_0_1 /\
   float_sub (max_temp w) (min_temp w) <= 20)%Q.

End Recommendations.
Import Recommendations.

(* ================================================================= *)
(** ** app.py: the list of stored analyses *)

Module Records_view.

(** The eight columns of the [SELECT]. *)
Record SummaryRow : Type := mkSummaryRow {
  r_latitude : Q;
  r_longitude : Q;
  r_month : Z;
  r_day : Z;
  r_year : Z;
  r_avg_temp : Q;
  r_max_wind : Q;
  r_sum_precip : Q
}.

Definition select_columns (w : WeatherRecord) : SummaryRow :=
  mkSummaryRow (latitude w) (longitude w) (month w) (day w) (year w)
               (avg_temp w) (max_wind w) (sum_precip w).

(** [a] comes no later than [b] under
    [ORDER BY year DESC, month DESC, day DESC]. *)
Definition date_geb (a b : WeatherRecord) : bool :=
  (year b <? year a) ||
  ((year b =? year a) &&
   ((month b <? month a) ||
    ((month b =? month a) && (day b <=? day a)))).

(** The engine's sort, as an insertion sort; rows with the same date stay
    in table order, a choice the database leaves open. *)
Fixpoint insert_desc (x : WeatherRecord) (l : list WeatherRecord)
    : list WeatherRecord :=
  match l with
  | [] => [x]
  | y :: rest =>
      if date_geb x y then x :: y :: rest else y :: insert_desc x rest
  end.

Definition order_by_date_desc (l : list WeatherRecord) : list WeatherRecord :=
  fold_right insert_desc [] l.

(** [SELECT ... FROM weather_data ORDER BY year DESC, month DESC, day DESC
    LIMIT 10] *)
Definition recent_query (rows : list (Z * WeatherRecord)) : list SummaryRow :=
  map select_columns (firstn 10 (order_by_date_desc (map snd rows))).

(** What [show_database_records] puts on the page. *)
Inductive View : Type :=
| RecentAnalyses (df : list SummaryRow)
| NoPreviousAnalyses
| LoadError (text : string).

Definition show_database_records (st : Store) : res View :=
  try_except
    (df <- match query_fault st with
           | Some e => Raise e
           | None => Ok (recent_query (table st))
           end ;;
     match df with
     | _ :: _ => Ok (RecentAnalyses df)
     | [] => Ok NoPreviousAnalyses
     end)
    (fun e => Ok (LoadError ("Error loading database records: " ++
                             str_exn e))).

(** The date of a row, as a triple compared lexicographically. *)
Definition date_le (a b : WeatherRecord) : Prop :=
  year a < year b \/
  (year a = year b /\
   (month a < month b \/ (month a = month b /\ day a <= day b))).

End Records_view.
Import Records_view.

(** *** Further vocabulary *)

(** Every stored id lies below the counter, and no id occurs twice. *)
Definition ids_fresh (st : Store) : Prop :=
  Forall (fun r => fst r < next_id st) (table st) /\
  NoDup (map fst (table st)).

(** The filter of [fetch]. *)
Definition on_date (m d y : Z) (r : Z * WeatherRecord) : bool :=
  (month (snd r) =? m) && (day (snd r) =? d) && (year (snd r) =? y).

(** The attribute is present on the object. *)
Definition has_attr (o : obj) (name : string) : Prop :=
  exists v, getattr o name = Ok v.

(** A store with one row already in it, and two more rows. *)
Definition demo_row (y m d : Z) : WeatherRecord :=
  mkWeatherRecord (257743 # 10000) (-801937 # 10000) m d y
                  71 60 86 10 8 13 (7 # 10) 0 (3 # 10).

Definition one_row_store : Store :=
  store_of [(1, demo_row 2025 6 23)] None None.

Definition stormy : WeatherRecord :=
  mkWeatherRecord 0 0 6 23 2025 88 70 95 20 10 30 (3 # 2) 0 1.

(** The summary of the demo analysis. *)
Definition demo_summary : WeatherRecord :=
  fill_from demo_self
    (series_of (map demo_sample [2025; 2024; 2023; 2022; 2021])).

(** Sum of the magnitudes, and sum, of a list of integers. *)
Definition magnitude (zs : list Z) : Z :=
  fold_right (fun z s => Z.abs z + s) 0 zs.

Definition Zsum (zs : list Z) : Z := fold_right Z.add 0 zs.

(** A day with a whole-number mean temperature. *)
Definition whole_sample (t : Z) : DailySample :=
  mkDailySample 0 (inject_Z (t + 9)) (inject_Z (t - 9)) (inject_Z t) 0 5 12.

(** The same number, given as an [int] or as the float of that value. *)
Definition same_number (v v' : pyval) : Prop :=
  v = v' \/ exists z, v = PyInt z /\ v' = PyFloat (inject_Z z).

(* ================================================================= *)
(** * Properties *)

(* ----------------------------------------------------------------- *)
(** ** Floating point *)

(** [pow2] is positive, monotone, and turns sums into products. *)
Lemma pow2_pos e : (0 < pow2 e)%Q.
Proof. apply Qpower_0_lt. reflexivity. Qed.

Lemma pow2_sub a b :
  0 <= a -> 0 <= b -> (pow2 (a - b) == inject_Z (2 ^ a) / inject_Z (2 ^ b))%Q.
Proof.
  intros Ha Hb. unfold pow2.
  rewrite Qpower_minus by discriminate.
  now rewrite !Zpower_Qpower.
Qed.

(** [ilog2 q] is the exponent of the power of two at or below [q]. *)
Lemma ilog2_spec q :
  (0 < q)%Q -> (pow2 (ilog2 q) <= q)%Q /\ (q < pow2 (ilog2 q + 1))%Q.
Proof.
  intros Hq. destruct q as [n d].
  assert (Hn : 0 < n) by (unfold Qlt in Hq; simpl in Hq; lia).
  unfold ilog2. cbn [Qnum Qden].
  pose proof (Z.log2_spec n Hn) as [Ha1 Ha2].
  pose proof (Z.log2_spec (Zpos d) (Pos2Z.is_pos d)) as [Hb1 Hb2].
  pose proof (Z.log2_nonneg n) as Ha0.
  pose proof (Z.log2_nonneg (Zpos d)) as Hb0.
  set (a := Z.log2 n) in *. set (b := Z.log2 (Zpos d)) in *.
  assert (HA : 0 < 2 ^ a) by (apply Z.pow_pos_nonneg; lia).
  assert (HB : 0 < 2 ^ b) by (apply Z.pow_pos_nonneg; lia).
  assert (HA' : 0 < 2 ^ Z.succ a) by (apply Z.pow_pos_nonneg; lia).
  assert (HB' : 0 < 2 ^ Z.succ b) by (apply Z.pow_pos_nonneg; lia).
  destruct (Qle_bool (pow2 (a - b)) (n # d)) eqn:E.
  - apply Qle_bool_iff in E. split; [exact E|].
    replace (a - b + 1) with (Z.succ a - b) by lia.
    rewrite pow2_sub by lia.
    apply Qlt_shift_div_l; [unfold Qlt; simpl; lia|].
    unfold Qlt; simpl. nia.
  - assert (E' : (n # d < pow2 (a - b))%Q).
    { apply Qnot_le_lt. intros H. apply Qle_bool_iff in H. congruence. }
    split; [|now replace (a - b - 1 + 1) with (a - b) by lia].
    replace (a - b - 1) with (a - Z.succ b) by lia.
    rewrite pow2_sub by lia.
    apply Qle_shift_div_r; [unfold Qlt; simpl; lia|].
    unfold Qle; simpl. nia.
Qed.

(** [round_half_even q] is within one half of [q]. *)
Lemma round_half_even_nearest q :
  (- (1 # 2) <= inject_Z (round_half_even q) - q <= 1 # 2)%Q.
Proof.
  unfold round_half_even.
  pose proof (Qfloor_le q) as Hlo. pose proof (Qlt_floor q) as Hhi.
  rewrite inject_Z_plus in Hhi. change (inject_Z 1) with 1%Q in Hhi.
  destruct (q - inject_Z (Qfloor q) ?= 1 # 2)%Q eqn:E.
  - apply Qeq_alt in E. destruct (Z.even (Qfloor q));
      [|rewrite inject_Z_plus; change (inject_Z 1) with 1%Q]; lra.
  - apply Qlt_alt in E. lra.
  - apply Qgt_alt in E. rewrite inject_Z_plus.
    change (inject_Z 1) with 1%Q. lra.
Qed.

(** [round fmt q] is a multiple of the unit in the last place of [q], at
    most half a unit away from [q]. *)
Lemma round_nearest fmt q :
  exists k : Z,
    (round fmt q == inject_Z k * pow2 (ulp_exponent fmt q))%Q /\
    (- ((1 # 2) * pow2 (ulp_exponent fmt q)) <= round fmt q - q
     <= (1 # 2) * pow2 (ulp_exponent fmt q))%Q.
Proof.
  pose proof (pow2_pos (ulp_exponent fmt q)) as Hp.
  unfold round. destruct (Qeq_bool q 0) eqn:E.
  - apply Qeq_bool_iff in E. exists 0.
    split; [change (inject_Z 0) with 0%Q; ring|].
    generalize dependent (pow2 (ulp_exponent fmt q)). intros P HP. lra.
  - cbv zeta. exists (round_half_even (q / pow2 (ulp_exponent fmt q))).
    split; [reflexivity|].
    pose proof (round_half_even_nearest (q / pow2 (ulp_exponent fmt q)))
      as H.
    assert (Hq : (q / pow2 (ulp_exponent fmt q) * pow2 (ulp_exponent fmt q)
                  == q)%Q).
    { field. intros H0. rewrite H0 in Hp. discriminate Hp. }
    generalize dependent (pow2 (ulp_exponent fmt q)). intros P HP.
    generalize (round_half_even (q / P)). intros k H Hq.
    generalize dependent (q / P)%Q. intros x H Hq. nra.
Qed.

Lemma pow2_le a b : a <= b -> (pow2 a <= pow2 b)%Q.
Proof. intros H. apply Qpower_le_compat_l; [exact H | discriminate]. Qed.

Lemma pow2_lt a b : a < b -> (pow2 a < pow2 b)%Q.
Proof. intros H. apply Qpower_lt_compat_l; [exact H | reflexivity]. Qed.

Lemma pow2_add a b : (pow2 (a + b) == pow2 a * pow2 b)%Q.
Proof. apply Qpower_plus. discriminate. Qed.

Lemma pow2_nonneg n : 0 <= n -> (pow2 n == inject_Z (2 ^ n))%Q.
Proof. intros H. unfold pow2. now rewrite Zpower_Qpower. Qed.

(** The exponent is the only one with its property. *)
Lemma ilog2_unique q e :
  (pow2 e <= q)%Q -> (q < pow2 (e + 1))%Q -> ilog2 q = e.
Proof.
  intros Hlo Hhi.
  assert (Hq : (0 < q)%Q) by (eapply Qlt_le_trans; [apply pow2_pos | exact Hlo]).
  destruct (ilog2_spec q Hq) as [Hlo' Hhi'].
  destruct (Z.lt_trichotomy (ilog2 q) e) as [H | [H | H]]; [|exact H|].
  - exfalso. assert (H1 : (pow2 (ilog2 q + 1) <= pow2 e)%Q)
      by (apply pow2_le; lia).
    apply (Qlt_irrefl q). eapply Qlt_le_trans; [exact Hhi'|].
    eapply Qle_trans; eassumption.
  - exfalso. assert (H1 : (pow2 (e + 1) <= pow2 (ilog2 q))%Q)
      by (apply pow2_le; lia).
    apply (Qlt_irrefl q). eapply Qlt_le_trans; [exact Hhi|].
    eapply Qle_trans; eassumption.
Qed.

Lemma ilog2_Qeq q q' : (q == q')%Q -> (0 < q)%Q -> ilog2 q = ilog2 q'.
Proof.
  intros E Hq. symmetry. destruct (ilog2_spec q Hq) as [Hlo Hhi].
  apply ilog2_unique; now rewrite <- E.
Qed.

Lemma round_half_even_Qeq q q' :
  (q == q')%Q -> round_half_even q = round_half_even q'.
Proof.
  intros E. unfold round_half_even.
  rewrite (Qfloor_comp _ _ E).
  assert (E' : (q - inject_Z (Qfloor q') == q' - inject_Z (Qfloor q'))%Q)
    by now rewrite E.
  now rewrite (Qcompare_comp _ _ E' (1 # 2) (1 # 2) (Qeq_refl _)).
Qed.

Lemma round_half_even_Z k : round_half_even (inject_Z k) = k.
Proof.
  unfold round_half_even. rewrite Qfloor_Z.
  assert (E : (inject_Z k - inject_Z k ?= 1 # 2)%Q = Lt).
  { apply Qlt_alt.
    setoid_replace (inject_Z k - inject_Z k)%Q with 0%Q by ring.
    reflexivity. }
  now rewrite E.
Qed.

(** Rounding is a function of the number, not of the fraction that writes
    it. *)
Lemma round_Qeq fmt q q' : (q == q')%Q -> (round fmt q == round fmt q')%Q.
Proof.
  intros E. unfold round.
  destruct (Qeq_bool q 0) eqn:E0.
  - apply Qeq_bool_iff in E0.
    assert (E0' : Qeq_bool q' 0 = true)
      by (apply Qeq_bool_iff; now rewrite <- E).
    rewrite E0'. reflexivity.
  - assert (E0' : Qeq_bool q' 0 = false).
    { destruct (Qeq_bool q' 0) eqn:E1; [|reflexivity].
      apply Qeq_bool_iff in E1. rewrite <- E in E1.
      apply Qeq_bool_iff in E1. congruence. }
    rewrite E0'. cbv zeta.
    assert (Hq : ~ (q == 0)%Q).
    { intros H. apply Qeq_bool_iff in H. congruence. }
    assert (He : ulp_exponent fmt q = ulp_exponent fmt q').
    { unfold ulp_exponent. f_equal. f_equal. f_equal.
      apply ilog2_Qeq; [apply Qabs_wd; exact E|].
      destruct (Qlt_le_dec 0 (Qabs q)) as [H | H]; [exact H|].
      exfalso. apply Hq. apply Qabs_Qle_condition in H. lra. }
    rewrite <- He.
    assert (Ex : (q / pow2 (ulp_exponent fmt q)
                  == q' / pow2 (ulp_exponent fmt q))%Q)
      by (apply Qmult_comp; [exact E | reflexivity]).
    now rewrite (round_half_even_Qeq _ _ Ex).
Qed.

(** A whole number below [2 ^ p] in magnitude is a value of the format. *)
Lemma round_whole fmt z :
  0 < precision fmt -> emin fmt <= 1 - precision fmt ->
  Z.abs z < 2 ^ precision fmt ->
  (round fmt (inject_Z z) == inject_Z z)%Q.
Proof.
  intros Hp Hemin Hz. unfold round.
  destruct (Qeq_bool (inject_Z z) 0) eqn:E0.
  - apply Qeq_bool_iff in E0. now rewrite E0.
  - cbv zeta.
    assert (Hz0 : z <> 0).
    { intros ->. discriminate E0. }
    assert (Habs : (Qabs (inject_Z z) == inject_Z (Z.abs z))%Q) by reflexivity.
    assert (Hpos : (0 < Qabs (inject_Z z))%Q).
    { rewrite Habs. unfold Qlt; simpl. lia. }
    destruct (ilog2_spec _ Hpos) as [Hlo Hhi].
    set (L := ilog2 (Qabs (inject_Z z))) in *.
    assert (HL0 : 0 <= L).
    { destruct (Z_lt_le_dec L 0) as [H | H]; [|exact H]. exfalso.
      assert (H1 : (pow2 (L + 1) <= pow2 0)%Q) by (apply pow2_le; lia).
      rewrite Habs in Hhi. change (pow2 0) with 1%Q in H1.
      assert (H2 : (inject_Z (Z.abs z) < 1)%Q) by lra.
      unfold Qlt in H2; simpl in H2. lia. }
    assert (HLp : L < precision fmt).
    { destruct (Z_lt_le_dec L (precision fmt)) as [H | H]; [exact H|].
      exfalso.
      assert (H1 : (pow2 (precision fmt) <= pow2 L)%Q) by (apply pow2_le; lia).
      rewrite pow2_nonneg in H1 by lia. rewrite Habs in Hlo.
      assert (H2 : (inject_Z (2 ^ precision fmt) <= inject_Z (Z.abs z))%Q)
        by lra.
      rewrite <- Zle_Qle in H2. lia. }
    assert (He : ulp_exponent fmt (inject_Z z) = L - precision fmt + 1).
    { unfold ulp_exponent. fold L. lia. }
    rewrite He. set (e := L - precision fmt + 1).
    assert (Hscale : (inject_Z z / pow2 e == inject_Z (z * 2 ^ (- e)))%Q).
    { rewrite inject_Z_mult, <- pow2_nonneg by (unfold e; lia).
      assert (H1 : (pow2 (- e) * pow2 e == 1)%Q).
      { rewrite <- pow2_add. now replace (- e + e) with 0 by lia. }
      pose proof (pow2_pos e) as Hpe.
      generalize dependent (pow2 (- e)). generalize dependent (pow2 e).
      intros P HP M HM. apply (Qmult_inj_r _ _ P); [lra|].
      transitivity (inject_Z z); [field; lra|].
      now rewrite <- Qmult_assoc, HM, Qmult_1_r. }
    rewrite (round_half_even_Qeq _ _ Hscale), round_half_even_Z.
    rewrite inject_Z_mult, <- pow2_nonneg by (unfold e; lia).
    rewrite <- Qmult_assoc, <- pow2_add.
    replace (- e + e) with 0 by lia. change (pow2 0) with 1%Q. ring.
Qed.

(** Known values: the float32 and the float64 nearest to one tenth, the
    float32 nearest to 10.2, ties going to the even significand. *)
Example round_values :
  (round binary32 (1 # 10) == 13421773 # 134217728)%Q /\
  (round binary64 (1 # 10) == float_0_1)%Q /\
  (round binary32 (51 # 5) == 10695475 # 1048576)%Q /\
  (round binary32 (16777217 # 1) == 16777216 # 1)%Q /\
  (round binary32 (16777219 # 1) == 16777220 # 1)%Q /\
  (round binary32 (1 # 3) == 11184811 # 33554432)%Q /\
  (1 # 10 < float_0_1)%Q.
Proof. repeat split; vm_compute; reflexivity. Qed.

(* ----------------------------------------------------------------- *)
(** ** Date validator *)

Lemma between_int (lo x hi : Z) :
  between lo (PyInt x) hi = Ok ((lo <=? x) && (x <=? hi)).
Proof.
  unfold between; simpl. now destruct (lo <=? x).
Qed.

Lemma isleap_int (y : Z) : isleap (PyInt y) = Ok (leap_year y).
Proof.
  unfold isleap, leap_year; simpl.
  destruct (y mod 4 =? 0); simpl; [|reflexivity].
  now destruct (y mod 100 =? 0).
Qed.

Lemma leap_year_spec (y : Z) : leap_year y = true <-> isLeapYear y.
Proof.
  unfold leap_year, isLeapYear.
  rewrite andb_true_iff, orb_true_iff, negb_true_iff, !Z.eqb_eq, Z.eqb_neq.
  rewrite <- !Z.mod_divide by lia. tauto.
Qed.

Lemma validate_date_int (m d y : Z) :
  validate_date (PyInt m) (PyInt d) (PyInt y) = Ok (valid_dateb m d y).
Proof.
  unfold validate_date, validate_date_body, valid_dateb, days_in_month.
  rewrite !between_int, isleap_int.
  change (val_in (PyInt m)) with (existsb (Z.eqb m)).
  generalize (existsb (Z.eqb m) [1; 3; 5; 7; 8; 10; 12]),
             (existsb (Z.eqb m) [4; 6; 9; 11]).
  intros long short.
  destruct ((1 <=? m) && (m <=? 12)); simpl; [|reflexivity].
  destruct ((1940 <=? y) && (y <=? 2030)); simpl; [|reflexivity].
  destruct long; [|destruct short; [|destruct (leap_year y)]]; simpl;
    match goal with
    | |- context [(1 <=? d) && (d <=? ?k)] =>
        destruct ((1 <=? d) && (d <=? k)); reflexivity
    end.
Qed.

Lemma valid_dateb_spec (m d y : Z) :
  valid_dateb m d y = true <-> valid_date m d y.
Proof.
  unfold valid_dateb, valid_date, day_in_bounds, days_in_month.
  rewrite !andb_true_iff, !Z.leb_le.
  split.
  - intros [[Hm Hy] [Hd1 Hd2]]. split; [lia|]. split; [lia|].
    assert (Hcases : m = 1 \/ m = 2 \/ m = 3 \/ m = 4 \/ m = 5 \/ m = 6 \/
                     m = 7 \/ m = 8 \/ m = 9 \/ m = 10 \/ m = 11 \/ m = 12)
      by lia.
    destruct (leap_year y) eqn:L.
    + apply leap_year_spec in L.
      repeat (destruct Hcases as [-> | Hcases]); try subst m;
        simpl in Hd2; simpl; intuition lia.
    + assert (~ isLeapYear y)
        by (rewrite <- leap_year_spec; congruence).
      repeat (destruct Hcases as [-> | Hcases]); try subst m;
        simpl in Hd2; simpl; intuition lia.
  - intros (Hm & Hy & Hd).
    assert (Hl : forall b : bool, isLeapYear y -> leap_year y = b -> b = true).
    { intros b H E. apply leap_year_spec in H. congruence. }
    assert (Hn : forall b : bool, ~ isLeapYear y -> leap_year y = b -> b = false).
    { intros b H E. destruct b; [|reflexivity].
      apply leap_year_spec in E. contradiction. }
    repeat split; try lia.
    destruct Hd as [[Hin Hd] | [[Hin Hd] | [(-> & L & Hd) | (-> & L & Hd)]]].
    + simpl in Hin.
      repeat (destruct Hin as [<- | Hin]; [simpl; lia|]). contradiction.
    + simpl in Hin.
      repeat (destruct Hin as [<- | Hin]; [simpl; lia|]). contradiction.
    + simpl. rewrite (Hl _ L eq_refl). lia.
    + simpl. rewrite (Hn _ L eq_refl). lia.
Qed.

(** The body of the validator raises nothing but [TypeError]. *)
Lemma between_raises lo v hi e : between lo v hi = Raise e -> e = TypeError.
Proof.
  unfold between. destruct v; simpl; try congruence.
  - destruct (lo <=? z); congruence.
  - destruct (Qle_bool (inject_Z lo) q); congruence.
Qed.

Lemma isleap_raises v e : isleap v = Raise e -> e = TypeError.
Proof.
  unfold isleap. destruct v; simpl; try congruence.
  - destruct (z mod 4 =? 0); simpl; [|congruence].
    destruct (z mod 100 =? 0); simpl; congruence.
  - repeat match goal with
           | |- context [if ?b then _ else _] => destruct b; simpl
           end; congruence.
Qed.

(** Case analysis along the control flow of [validate_date_body]. *)
Ltac validator_cases :=
  repeat match goal with
         | |- context [between ?lo ?v ?hi] =>
             let E := fresh "E" in
             destruct (between lo v hi) as [[|]|] eqn:E; cbn [Py.bind negb];
             try (apply between_raises in E; subst)
         | |- context [isleap ?v] =>
             let E := fresh "E" in
             destruct (isleap v) as [[|]|] eqn:E; cbn [Py.bind negb];
             try (apply isleap_raises in E; subst)
         | |- context [if val_in ?v ?l then _ else _] =>
             destruct (val_in v l)
         end.

Lemma validate_date_body_raises month day year e :
  validate_date_body month day year = Raise e -> e = TypeError.
Proof.
  unfold validate_date_body. validator_cases; congruence.
Qed.

Lemma validate_date_total month day year :
  exists b, validate_date month day year = Ok b.
Proof.
  unfold validate_date.
  destruct (validate_date_body month day year) as [b|e] eqn:E; simpl.
  - now exists b.
  - apply validate_date_body_raises in E; subst. now exists false.
Qed.

Lemma between_non_numeric lo v hi :
  non_numeric v -> between lo v hi = Raise TypeError.
Proof. destruct v; simpl; intros []; reflexivity. Qed.

Lemma validate_date_non_numeric month day year :
  non_numeric month \/ non_numeric day \/ non_numeric year ->
  validate_date month day year = Ok false.
Proof.
  intros H.
  destruct (validate_date_total month day year) as [[|] Hb]; [|exact Hb].
  exfalso. revert Hb. unfold validate_date, validate_date_body.
  destruct H as [H | [H | H]].
  - rewrite (between_non_numeric _ _ _ H). simpl. congruence.
  - rewrite !(between_non_numeric _ day _ H).
    validator_cases; cbn; congruence.
  - rewrite !(between_non_numeric _ year _ H).
    validator_cases; cbn; congruence.
Qed.

(** On integer arguments [validate_date] returns [True] exactly when month
    is in [1,12], year in [1940,2030] and the day within the bounds of the
    month (31 days for 1,3,5,7,8,10,12; 30 for 4,6,9,11; February 29 in
    leap years, else 28); it never raises; on an argument that cannot be
    ordered against an integer (a string, [None]) it returns [False]; and
    the five sample dates of the specification come out as stated. *)
Theorem validate_date_integers_and_non_numbers :
  (forall m d y : Z,
     validate_date (PyInt m) (PyInt d) (PyInt y) = Ok true <->
     valid_date m d y) /\
  (forall month day year, exists b, validate_date month day year = Ok b) /\
  (forall month day year,
     non_numeric month \/ non_numeric day \/ non_numeric year ->
     validate_date month day year = Ok false) /\
  validate_date (PyInt 2) (PyInt 29) (PyInt 2024) = Ok true /\
  validate_date (PyInt 2) (PyInt 29) (PyInt 2023) = Ok false /\
  validate_date (PyInt 4) (PyInt 31) (PyInt 2025) = Ok false /\
  validate_date (PyInt 13) (PyInt 1) (PyInt 2025) = Ok false /\
  validate_date (PyInt 6) (PyInt 23) (PyInt 1939) = Ok false.
Proof.
  split; [|split; [|split]].
  - intros m d y. rewrite validate_date_int, <- valid_dateb_spec.
    split; congruence.
  - apply validate_date_total.
  - apply validate_date_non_numeric.
  - repeat split; reflexivity.
Qed.

Lemma validate_date_integers_and_non_numbers_witness :
  validate_date (PyInt 2) (PyInt 29) (PyInt 2024) = Ok true /\
  validate_date (PyStr "June") (PyInt 23) (PyInt 2025) = Ok false.
Proof.
  split.
  - apply (proj1 validate_date_integers_and_non_numbers 2 29 2024).
    unfold valid_date, day_in_bounds, isLeapYear.
    split; [lia|]. split; [lia|].
    right; right; left. split; [reflexivity|]. split; [|lia].
    split; [exists 506; reflexivity|].
    left. intros [k Hk]. lia.
  - apply (proj1 (proj2 (proj2 validate_date_integers_and_non_numbers))).
    left. exact I.
Defined.

(** C5: [validate_date(1.5, 1, 2000)] answers [True].  A month of 1.5 lies
    between 1 and 12 and is in neither list of months, so the validator
    takes the [else] branch, the one commented [# February], and checks the
    day against the 29 days of February 2000.  The arguments are not a date
    (1.5 is no month), so the answer the docstring and the specification
    ask for is [False], the answer every other malformed input gets. *)
Theorem validate_date_accepts_fractional_month :
  validate_date (PyFloat (3 # 2)) (PyInt 1) (PyInt 2000) = Ok true /\
  ~ well_formed_date (PyFloat (3 # 2)) (PyInt 1) (PyInt 2000) /\
  validate_date (PyStr "1.5") (PyInt 1) (PyInt 2000) = Ok false /\
  validate_date (PyInt 13) (PyInt 1) (PyInt 2000) = Ok false.
Proof.
  split; [reflexivity|]. split; [|split; reflexivity].
  intros (m & d & y & Hm & _). discriminate Hm.
Qed.

(* ----------------------------------------------------------------- *)
(** ** Risk and suitability scorer *)

Lemma gt_dec (x c : Q) :
  gt x c = if Qlt_le_dec c x then true else false.
Proof.
  unfold gt. destruct (Qlt_le_dec c x) as [H | H].
  - destruct (Qle_bool x c) eqn:E; [|reflexivity].
    apply Qle_bool_iff in E. exfalso. exact (Qlt_not_le _ _ H E).
  - apply Qle_bool_iff in H. now rewrite H.
Qed.

Lemma lt_dec (x c : Q) :
  lt x c = if Qlt_le_dec x c then true else false.
Proof. unfold lt. exact (gt_dec c x). Qed.

Lemma gt_true (x c : Q) : gt x c = true <-> (c < x)%Q.
Proof.
  rewrite gt_dec. destruct (Qlt_le_dec c x) as [H | H].
  - tauto.
  - split; [discriminate|]. intros H'. exfalso. exact (Qlt_not_le _ _ H' H).
Qed.

Lemma tier_at_upper (x upper lower : Q) :
  (x == upper)%Q -> (lower < upper)%Q -> tier x upper lower = 1.
Proof.
  intros H Hlu. unfold tier.
  destruct (Qlt_le_dec upper x); [lra|].
  destruct (Qlt_le_dec lower x); [reflexivity | lra].
Qed.

Lemma tier_at_lower (x upper lower : Q) :
  (x == lower)%Q -> (lower < upper)%Q -> tier x upper lower = 0.
Proof.
  intros H Hlu. unfold tier.
  destruct (Qlt_le_dec upper x); [lra|].
  destruct (Qlt_le_dec lower x); [lra | reflexivity].
Qed.

Lemma risk_after_precip_eq (w : WeatherRecord) :
  risk_after_precip w = risk_factors w.
Proof.
  unfold risk_after_precip, risk_after_wind, risk_after_temperature,
    risk_factors, tier.
  rewrite !gt_dec.
  repeat match goal with
         | |- context [Qlt_le_dec ?a ?b] => destruct (Qlt_le_dec a b)
         end; reflexivity.
Qed.

(** C3: the risk level accumulates, with strict comparisons, 2/1/0 for
    max_temp above 90/85, for max_wind above 25/15 and for sum_precip above
    1.0/0.5; 4 or more gives "High", 2 or 3 "Medium", less "Low"; a value
    exactly on a threshold does not reach the tier above it. *)
Theorem calculate_weather_risk_tiers (w : WeatherRecord) :
  risk_after_precip w = risk_factors w /\
  (4 <= risk_factors w ->
   calculate_weather_risk w = mkRisk "High" "Consider indoor alternatives") /\
  (2 <= risk_factors w < 4 ->
   calculate_weather_risk w = mkRisk "Medium" "Have backup plans ready") /\
  (risk_factors w < 2 ->
   calculate_weather_risk w = mkRisk "Low" "Good conditions expected") /\
  ((max_temp w == 90)%Q -> tier (max_temp w) 90 85 = 1) /\
  ((max_temp w == 85)%Q -> tier (max_temp w) 90 85 = 0) /\
  ((max_wind w == 25)%Q -> tier (max_wind w) 25 15 = 1) /\
  ((max_wind w == 15)%Q -> tier (max_wind w) 25 15 = 0) /\
  ((sum_precip w == 1)%Q -> tier (sum_precip w) 1 (1 # 2) = 1) /\
  ((sum_precip w == (1 # 2))%Q -> tier (sum_precip w) 1 (1 # 2) = 0).
Proof.
  split; [apply risk_after_precip_eq|].
  unfold calculate_weather_risk. rewrite risk_after_precip_eq.
  split; [|split; [|split]].
  - intros H. apply Z.leb_le in H. now rewrite H.
  - intros [H2 H4]. apply Z.leb_le in H2. apply Z.leb_gt in H4.
    now rewrite H4, H2.
  - intros H.
    assert (H4 : (4 <=? risk_factors w) = false) by (apply Z.leb_gt; lia).
    assert (H2 : (2 <=? risk_factors w) = false) by (apply Z.leb_gt; lia).
    now rewrite H4, H2.
  - repeat split; intros H;
      (apply tier_at_upper || apply tier_at_lower); trivial; reflexivity.
Qed.

Lemma calculate_weather_risk_tiers_witness :
  calculate_weather_risk (extremes 95 30 (3 # 2)) =
    mkRisk "High" "Consider indoor alternatives" /\
  calculate_weather_risk (extremes 91 10 (1 # 5)) =
    mkRisk "Medium" "Have backup plans ready" /\
  calculate_weather_risk (extremes 80 5 0) =
    mkRisk "Low" "Good conditions expected" /\
  tier (max_temp (extremes 90 0 0)) 90 85 = 1.
Proof.
  split; [|split; [|split]].
  - apply (proj1 (proj2 (calculate_weather_risk_tiers _))).
    vm_compute. discriminate.
  - apply (proj1 (proj2 (proj2 (calculate_weather_risk_tiers _)))).
    vm_compute. split; [discriminate | reflexivity].
  - apply (proj1 (proj2 (proj2 (proj2 (calculate_weather_risk_tiers _))))).
    vm_compute. reflexivity.
  - apply (proj1 (proj2 (proj2 (proj2 (proj2
             (calculate_weather_risk_tiers (extremes 90 0 0))))))).
    reflexivity.
Defined.

Lemma score_after_precip_eq (w : WeatherRecord) :
  score_after_precip w =
  100 - tempDeduction w - windDeduction w - precipDeduction w.
Proof.
  unfold score_after_precip, score_after_wind, score_after_temperature,
    tempDeduction, windDeduction, precipDeduction.
  rewrite !gt_dec, !lt_dec.
  repeat match goal with
         | |- context [Qlt_le_dec ?a ?b] => destruct (Qlt_le_dec a b)
         end; reflexivity.
Qed.


(** The three blocks of the score take off at most 30, 25 and 20. *)
Lemma score_after_temperature_bounds (w : WeatherRecord) :
  70 <= score_after_temperature w <= 100.
Proof.
  unfold score_after_temperature.
  destruct (lt (avg_temp w) 60 || gt (avg_temp w) 90);
    [|destruct (lt (avg_temp w) 70 || gt (avg_temp w) 80)]; lia.
Qed.

Lemma score_after_wind_bounds (w : WeatherRecord) :
  score_after_temperature w - 25 <= score_after_wind w
  <= score_after_temperature w.
Proof.
  unfold score_after_wind.
  destruct (gt (max_wind w) 25);
    [|destruct (gt (max_wind w) 15); [|destruct (gt (max_wind w) 10)]]; lia.
Qed.

Lemma score_after_precip_bounds (w : WeatherRecord) :
  score_after_wind w - 20 <= score_after_precip w <= score_after_wind w.
Proof.
  unfold score_after_precip.
  destruct (gt (sum_precip w) 1);
    [|destruct (gt (sum_precip w) (1 # 2));
      [|destruct (gt (sum_precip w) float_0_1)]]; lia.
Qed.

(** C9: the deductions total at most 75, so the score before the clamp is
    at least 25, the clamp changes nothing, and the score returned lies in
    [25,100]; both ends are reached. *)
Theorem suitability_score_never_below_25 :
  (forall w : WeatherRecord,
     0 <= 100 - score_after_precip w <= 75 /\
     25 <= score_after_precip w /\
     calculate_weather_suitability_score w = score_after_precip w /\
     25 <= calculate_weather_suitability_score w <= 100) /\
  calculate_weather_suitability_score (summary_of 95 26 2) = 25 /\
  calculate_weather_suitability_score (summary_of 72 3 0) = 100.
Proof.
  split; [|split; reflexivity].
  intros w.
  pose proof (score_after_temperature_bounds w).
  pose proof (score_after_wind_bounds w).
  pose proof (score_after_precip_bounds w).
  unfold calculate_weather_suitability_score. lia.
Qed.

(* ----------------------------------------------------------------- *)
(** ** Pandas reductions *)

Lemma fold_min_lower (l : list Q) (a : Q) :
  (fold_left Qmin l a <= a)%Q /\
  Forall (fun y => (fold_left Qmin l a <= y)%Q) l.
Proof.
  revert a. induction l as [|x l IH]; intros a; simpl.
  - split; [apply Qle_refl | constructor].
  - destruct (IH (Qmin a x)) as [Ha Hl]. split.
    + eapply Qle_trans; [exact Ha | apply Q.le_min_l].
    + constructor; [|exact Hl].
      eapply Qle_trans; [exact Ha | apply Q.le_min_r].
Qed.

Lemma fold_min_attained (l : list Q) (a : Q) :
  Exists (fun y => (fold_left Qmin l a == y)%Q) (a :: l).
Proof.
  revert a. induction l as [|x l IH]; intros a; simpl.
  - left. reflexivity.
  - specialize (IH (Qmin a x)). inversion IH as [? ? H | ? ? H]; subst.
    + destruct (Q.min_dec a x) as [E | E].
      * left. now rewrite H.
      * right. left. now rewrite H.
    + right. right. exact H.
Qed.

Lemma Series_min_is_min (l : list Q) : l <> [] -> is_min_of (Series_min l) l.
Proof.
  destruct l as [|x l]; [congruence|]. intros _.
  unfold is_min_of, Series_min. split.
  - destruct (fold_min_lower l x). now constructor.
  - apply fold_min_attained.
Qed.

Lemma fold_max_upper (l : list Q) (a : Q) :
  (a <= fold_left Qmax l a)%Q /\
  Forall (fun y => (y <= fold_left Qmax l a)%Q) l.
Proof.
  revert a. induction l as [|x l IH]; intros a; simpl.
  - split; [apply Qle_refl | constructor].
  - destruct (IH (Qmax a x)) as [Ha Hl]. split.
    + eapply Qle_trans; [apply Q.le_max_l | exact Ha].
    + constructor; [|exact Hl].
      eapply Qle_trans; [apply Q.le_max_r | exact Ha].
Qed.

Lemma fold_max_attained (l : list Q) (a : Q) :
  Exists (fun y => (fold_left Qmax l a == y)%Q) (a :: l).
Proof.
  revert a. induction l as [|x l IH]; intros a; simpl.
  - left. reflexivity.
  - specialize (IH (Qmax a x)). inversion IH as [? ? H | ? ? H]; subst.
    + destruct (Q.max_dec a x) as [E | E].
      * left. now rewrite H.
      * right. left. now rewrite H.
    + right. right. exact H.
Qed.

Lemma Series_max_is_max (l : list Q) : l <> [] -> is_max_of (Series_max l) l.
Proof.
  destruct l as [|x l]; [congruence|]. intros _.
  unfold is_max_of, Series_max. split.
  - destruct (fold_max_upper l x). now constructor.
  - apply fold_max_attained.
Qed.

(* ----------------------------------------------------------------- *)
(** ** Fetcher and five-year aggregator *)

Lemma call_api_read_daily env self dt :
  call_api env self dt dt =
  (responses <- weather_api env (request_for self dt) ;;
   response <- item0 responses ;;
   read_daily response).
Proof. reflexivity. Qed.

(** One turn of the loop is one single-day fetch and one append. *)
Lemma loop_body_fetch_year env self i acc :
  loop_body env self i acc =
  (s <- fetch_year env self i ;; Ok (append_sample acc s)).
Proof.
  unfold loop_body, fetch_year, first_day.
  destruct (datetime _ _ _) as [dt|]; [|reflexivity]. cbn [Py.bind].
  destruct (call_api env self dt dt) as [data|]; [|reflexivity].
  cbn [Py.bind].
  destruct data as [ds a b c p w g]; cbn [date temperature_2m_max
    temperature_2m_min temperature_2m_mean precipitation_sum
    wind_speed_10m_max wind_gusts_10m_max].
  destruct ds, a, b, c, p, w, g; reflexivity.
Qed.

Lemma for_in_loop_body env self l acc :
  for_in l (loop_body env self) acc =
  (ss <- fetch_years env self l ;; Ok (fold_left append_sample ss acc)).
Proof.
  revert acc. induction l as [|i l IH]; intros acc; simpl; [reflexivity|].
  rewrite loop_body_fetch_year.
  destruct (fetch_year env self i) as [s|]; [|reflexivity]. cbn [Py.bind].
  rewrite IH. now destruct (fetch_years env self l).
Qed.

Lemma fold_append_sample rows more :
  fold_left append_sample more (series_of rows) = series_of (rows ++ more).
Proof.
  revert rows. induction more as [|s more IH]; intros rows; simpl.
  - now rewrite app_nil_r.
  - replace (append_sample (series_of rows) s) with (series_of (rows ++ [s])).
    + rewrite IH, <- app_assoc. reflexivity.
    + unfold series_of, append_sample; simpl. now rewrite !map_app.
Qed.

(** The aggregator is the five fetches, in loop order, laid out as
    columns. *)
Lemma get_data_for_date_rows env self :
  get_data_for_date env self =
  (ss <- fetch_years env self range_1_6 ;; Ok (series_of ss)).
Proof.
  unfold get_data_for_date. rewrite for_in_loop_body.
  destruct (fetch_years env self range_1_6) as [ss|]; [|reflexivity].
  cbn [Py.bind]. f_equal. exact (fold_append_sample [] ss).
Qed.

Lemma fetch_years_length env self l ss :
  fetch_years env self l = Ok ss -> List.length ss = List.length l.
Proof.
  revert ss. induction l as [|i l IH]; intros ss; simpl.
  - intros [= <-]. reflexivity.
  - destruct (fetch_year env self i); [|discriminate]. cbn [Py.bind].
    destruct (fetch_years env self l) as [ss'|]; [|discriminate].
    intros [= <-]. simpl. f_equal. now apply IH.
Qed.

Lemma fetch_years_five env self ss :
  fetch_years env self range_1_6 = Ok ss ->
  exists s1 s2 s3 s4 s5,
    ss = [s1; s2; s3; s4; s5] /\
    fetch_year env self 1 = Ok s1 /\ fetch_year env self 2 = Ok s2 /\
    fetch_year env self 3 = Ok s3 /\ fetch_year env self 4 = Ok s4 /\
    fetch_year env self 5 = Ok s5.
Proof.
  unfold range_1_6. cbn [fetch_years].
  destruct (fetch_year env self 1) as [s1|]; [|discriminate].
  destruct (fetch_year env self 2) as [s2|]; [|discriminate].
  destruct (fetch_year env self 3) as [s3|]; [|discriminate].
  destruct (fetch_year env self 4) as [s4|]; [|discriminate].
  destruct (fetch_year env self 5) as [s5|]; [|discriminate].
  cbn [Py.bind]. intros [= <-]. now exists s1, s2, s3, s4, s5.
Qed.

Lemma fetch_years_raise env self l i e :
  In i l -> fetch_year env self i = Raise e ->
  exists e', fetch_years env self l = Raise e'.
Proof.
  induction l as [|j l IH]; intros Hin He; [contradiction|].
  cbn [fetch_years].
  destruct (fetch_year env self j) as [s|e0] eqn:Ej; [|now exists e0].
  cbn [Py.bind]. destruct Hin as [-> | Hin]; [congruence|].
  destruct (IH Hin He) as [e' ->]. now exists e'.
Qed.

Lemma get_data_for_date_five env self df :
  get_data_for_date env self = Ok df ->
  exists s1 s2 s3 s4 s5,
    df = series_of [s1; s2; s3; s4; s5] /\
    fetch_year env self 1 = Ok s1 /\ fetch_year env self 2 = Ok s2 /\
    fetch_year env self 3 = Ok s3 /\ fetch_year env self 4 = Ok s4 /\
    fetch_year env self 5 = Ok s5.
Proof.
  rewrite get_data_for_date_rows.
  destruct (fetch_years env self range_1_6) as [ss|] eqn:E; [|discriminate].
  cbn [Py.bind]. intros [= <-].
  destruct (fetch_years_five _ _ _ E) as (s1 & s2 & s3 & s4 & s5 & -> & H).
  now exists s1, s2, s3, s4, s5.
Qed.

Lemma get_data_for_date_raise env self i e :
  In i range_1_6 -> fetch_year env self i = Raise e ->
  exists e', get_data_for_date env self = Raise e'.
Proof.
  intros Hin He. rewrite get_data_for_date_rows.
  destruct (fetch_years_raise env self _ i e Hin He) as [e' ->].
  now exists e'.
Qed.

(** C1: for every assembled series the statistics step yields the mean of
    the five mean temperatures, the minimum of the five minimum and the
    maximum of the five maximum temperatures, the mean, minimum and maximum
    of the five max-wind-speed values, and the sum, minimum and maximum of
    the five precipitation sums; mean and sum are those of float32
    arithmetic, taken over the rows in series order; the gust column has no
    influence on any of the nine. *)
Theorem statistics_of_five_year_series env self df :
  get_data_for_date env self = Ok df ->
  exists s1 s2 s3 s4 s5,
    let rows := [s1; s2; s3; s4; s5] in
    let m := fill_from self df in
    df = series_of rows /\
    fill_out_class env self = Ok m /\
    avg_temp m =
      float32_mean5 (s_temperature_mean s1) (s_temperature_mean s2)
        (s_temperature_mean s3) (s_temperature_mean s4)
        (s_temperature_mean s5) /\
    is_min_of (min_temp m) (map s_temperature_min rows) /\
    is_max_of (max_temp m) (map s_temperature_max rows) /\
    avg_wind m =
      float32_mean5 (s_wind_speed_max s1) (s_wind_speed_max s2)
        (s_wind_speed_max s3) (s_wind_speed_max s4) (s_wind_speed_max s5) /\
    is_min_of (min_wind m) (map s_wind_speed_max rows) /\
    is_max_of (max_wind m) (map s_wind_speed_max rows) /\
    sum_precip m =
      float32_sum5 (s_precipitation s1) (s_precipitation s2)
        (s_precipitation s3) (s_precipitation s4) (s_precipitation s5) /\
    is_min_of (min_precip m) (map s_precipitation rows) /\
    is_max_of (max_precip m) (map s_precipitation rows) /\
    (forall gusts, fill_from self (with_gusts df gusts) = m).
Proof.
  intros Hdf.
  destruct (get_data_for_date_five _ _ _ Hdf)
    as (s1 & s2 & s3 & s4 & s5 & -> & _).
  exists s1, s2, s3, s4, s5. cbv zeta.
  split; [reflexivity|].
  split; [unfold fill_out_class; now rewrite Hdf|].
  assert (Hsum : forall a b c d e,
            Series_sum [a; b; c; d; e] = float32_sum5 a b c d e).
  { intros. unfold Series_sum, float32_sum5. cbn [fold_left]. reflexivity. }
  assert (Hmean : forall a b c d e,
             Series_mean [a; b; c; d; e] = float32_mean5 a b c d e).
  { intros. unfold Series_mean, float32_mean5. rewrite Hsum.
    cbn [List.length]. reflexivity. }
  split; [apply Hmean|].
  split; [apply Series_min_is_min; discriminate|].
  split; [apply Series_max_is_max; discriminate|].
  split; [apply Hmean|].
  split; [apply Series_min_is_min; discriminate|].
  split; [apply Series_max_is_max; discriminate|].
  split; [apply Hsum|].
  split; [apply Series_min_is_min; discriminate|].
  split; [apply Series_max_is_max; discriminate|].
  intros gusts.
  unfold fill_from, calc_avg_temp, calc_wind_speed_max, calc_total_precip,
    with_gusts, series_of.
  cbn [temperature_2m_mean temperature_2m_min temperature_2m_max
       precipitation_sum wind_speed_10m_max].
  reflexivity.
Qed.

(** The demo analysis: mean temperatures 70, 72, 71, 70, 72 average to 71;
    winds 11, 10, 9, 8, 13 to the float32 nearest to 10.2; the precipitation
    of 0.1, 0, 0.3, 0.2, 0.1 inch adds up, in float32, to 0.70000005. *)
Lemma statistics_of_five_year_series_witness :
  exists m,
    fill_out_class demo_env demo_self = Ok m /\
    (avg_temp m == 71)%Q /\
    (avg_wind m == 10695475 # 1048576)%Q /\
    (sum_precip m == 11744052 # 16777216)%Q /\
    (min_precip m == 0)%Q /\
    (max_precip m == float32 (3 # 10))%Q.
Proof.
  destruct (statistics_of_five_year_series demo_env demo_self
              (series_of (map demo_sample [2025; 2024; 2023; 2022; 2021])))
    as (s1 & s2 & s3 & s4 & s5 & Hrows & Hfill & _).
  - vm_compute. reflexivity.
  - eexists. split; [exact Hfill|].
    repeat split; vm_compute; reflexivity.
Defined.

(** A day that exists in the target year exists in every year, unless it
    is 29 February. *)
Lemma datetime_same_day (m d y0 y : Z) :
  valid_date m d y0 -> ~ (m = 2 /\ d = 29) -> 1 <= y <= 9999 ->
  datetime y m d = Ok (mkDate y m d).
Proof.
  intros Hv Hleap Hy. apply valid_dateb_spec in Hv.
  unfold valid_dateb in Hv. rewrite !andb_true_iff, !Z.leb_le in Hv.
  destruct Hv as [[Hm _] [Hd1 Hd2]].
  assert (Hd : d <= days_in_month y m).
  { assert (Hcases : m = 1 \/ m = 2 \/ m = 3 \/ m = 4 \/ m = 5 \/ m = 6 \/
                     m = 7 \/ m = 8 \/ m = 9 \/ m = 10 \/ m = 11 \/ m = 12)
      by lia.
    unfold days_in_month in *.
    repeat (destruct Hcases as [-> | Hcases]); try subst m;
      cbn in Hd2 |- *; try assumption.
    destruct (leap_year y0), (leap_year y); lia. }
  unfold datetime.
  replace ((1 <=? y) && (y <=? 9999) && (1 <=? m) && (m <=? 12) &&
           (1 <=? d) && (d <=? days_in_month y m)) with true; [reflexivity|].
  symmetry. rewrite !andb_true_iff, !Z.leb_le. lia.
Qed.

Lemma fetch_year_answers env self i smp :
  datetime (now_year env - i) (month self) (day self)
    = Ok (mkDate (now_year env - i) (month self) (day self)) ->
  answers env self (now_year env - i) smp ->
  fetch_year env self i = Ok smp.
Proof.
  intros Hdt (daily & rest & Hapi & Hs).
  unfold fetch_year. rewrite Hdt. cbn [Py.bind].
  rewrite call_api_read_daily, Hapi. cbn [Py.bind item0].
  destruct (read_daily daily); exact Hs.
Qed.

(** C2 (as amended): for a valid target date other than 29 February, when
    the archive answers the five requests, the series has exactly five
    entries, one per year from currentYear-1 down to currentYear-5, each
    the first day of the answer to the request for the target's month and
    day in that year, most recent year first. *)
Theorem five_year_series_most_recent_first env self (s : Z -> DailySample) :
  valid_date (month self) (day self) (year self) ->
  ~ (month self = 2 /\ day self = 29) ->
  6 <= now_year env <= 10000 ->
  (forall i, 1 <= i <= 5 -> answers env self (now_year env - i) (s i)) ->
  get_data_for_date env self = Ok (series_of [s 1; s 2; s 3; s 4; s 5]) /\
  List.length (date (series_of [s 1; s 2; s 3; s 4; s 5])) = 5%nat.
Proof.
  intros Hv Hleap Hnow Hans. split; [|reflexivity].
  assert (Hf : forall i, 1 <= i <= 5 -> fetch_year env self i = Ok (s i)).
  { intros i Hi. apply fetch_year_answers; [|now apply Hans].
    apply datetime_same_day with (y0 := year self); trivial. lia. }
  rewrite get_data_for_date_rows. unfold range_1_6. cbn [fetch_years].
  rewrite !Hf by lia. reflexivity.
Qed.

Lemma five_year_series_most_recent_first_witness :
  get_data_for_date demo_env demo_self =
  Ok (series_of (map demo_sample [2025; 2024; 2023; 2022; 2021])).
Proof.
  apply (five_year_series_most_recent_first demo_env demo_self
           (fun i => demo_sample (2026 - i))).
  - apply valid_dateb_spec. reflexivity.
  - cbn. lia.
  - cbn. lia.
  - intros i Hi. exists (demo_daily (mkDate (2026 - i) 6 23)), [].
    split; [reflexivity|].
    assert (Hcases : i = 1 \/ i = 2 \/ i = 3 \/ i = 4 \/ i = 5) by lia.
    repeat (destruct Hcases as [-> | Hcases]); try subst i;
      vm_compute; reflexivity.
Defined.

(** C2, as stated, fails: the loop walks back from last year, so the
    series comes out with the most recent year first, not in ascending
    order. *)
Lemma five_year_series_not_year_ascending :
  ~ (forall env self df,
       valid_date (month self) (day self) (year self) ->
       get_data_for_date env self = Ok df ->
       year_ascending env df).
Proof.
  intros H.
  specialize (H demo_env demo_self
                (series_of (map demo_sample [2025; 2024; 2023; 2022; 2021]))).
  assert (Hv : valid_date (month demo_self) (day demo_self) (year demo_self))
    by (apply valid_dateb_spec; reflexivity).
  specialize (H Hv eq_refl). vm_compute in H. discriminate H.
Qed.

(** Two consecutive years are never both leap years. *)
Lemma leap_year_not_twice (y : Z) :
  leap_year y = true -> leap_year (y - 1) = false.
Proof.
  unfold leap_year. rewrite andb_true_iff, Z.eqb_eq. intros [H4 _].
  apply andb_false_iff. left. apply Z.eqb_neq.
  intros H. pose proof (Z.mod_pos_bound y 4).
  pose proof (Z.div_mod y 4). pose proof (Z.div_mod (y - 1) 4). lia.
Qed.

Lemma datetime_leap_day (y : Z) :
  leap_year y = false -> datetime y 2 29 = Raise ValueError.
Proof.
  intros H. unfold datetime, days_in_month. cbn [existsb Z.eqb orb].
  rewrite H. cbn. now rewrite !andb_false_r.
Qed.

(** For a target of 29 February the aggregator never assembles a series:
    one of the two most recent years is not a leap year, and building its
    date raises. *)
Lemma leap_day_target_raises env self :
  month self = 2 -> day self = 29 ->
  exists e, get_data_for_date env self = Raise e.
Proof.
  intros Hm Hd.
  assert (Hy : forall i, leap_year (now_year env - i) = false ->
                         fetch_year env self i = Raise ValueError).
  { intros i Hi. unfold fetch_year. rewrite Hm, Hd.
    now rewrite (datetime_leap_day _ Hi). }
  destruct (leap_year (now_year env - 1)) eqn:L.
  - apply get_data_for_date_raise with (i := 2) (e := ValueError).
    + cbn. tauto.
    + apply Hy. apply leap_year_not_twice in L.
      now replace (now_year env - 2) with (now_year env - 1 - 1) by lia.
  - apply get_data_for_date_raise with (i := 1) (e := ValueError).
    + cbn. tauto.
    + now apply Hy.
Qed.

(* ----------------------------------------------------------------- *)
(** ** Single-day fetch *)

(** C7 (as amended): of the response to a single-day request the
    aggregator takes the first day as that year's sample, whatever follows
    it; it fails with [IndexError] when the response carries no day. *)
Theorem single_day_fetch_takes_first_day env self i acc dt data :
  datetime (now_year env - i) (month self) (day self) = Ok dt ->
  call_api env self dt dt = Ok data ->
  (days_of data = 0%nat -> loop_body env self i acc = Raise IndexError) /\
  (forall d a b c p w g later_d later_a later_b later_c later_p later_w
          later_g,
     data = mkColumns (d :: later_d) (a :: later_a) (b :: later_b)
                      (c :: later_c) (p :: later_p) (w :: later_w)
                      (g :: later_g) ->
     loop_body env self i acc =
     Ok (append_sample acc (mkDailySample d a b c p w g))).
Proof.
  intros Hdt Hdata. rewrite loop_body_fetch_year.
  unfold fetch_year. rewrite Hdt. cbn [Py.bind]. rewrite Hdata.
  cbn [Py.bind]. split.
  - unfold days_of, first_day. destruct (date data); [|discriminate].
    reflexivity.
  - intros. subst data. reflexivity.
Qed.

Lemma single_day_fetch_takes_first_day_witness :
  loop_body no_day_env demo_self 1 empty_columns = Raise IndexError /\
  loop_body two_day_env demo_self 1 empty_columns =
  Ok (append_sample empty_columns
        (mkDailySample (timestamp_of_date (mkDate 2025 6 23))
                       81 61 72 0 9 16)).
Proof.
  split.
  - eapply (proj1 (single_day_fetch_takes_first_day no_day_env demo_self 1
                     empty_columns (mkDate 2025 6 23) _ eq_refl eq_refl)).
    reflexivity.
  - eapply (proj2 (single_day_fetch_takes_first_day two_day_env demo_self 1
                     empty_columns (mkDate 2025 6 23) _ eq_refl eq_refl)).
    vm_compute. reflexivity.
Defined.

(** C7, as stated, fails: a response that carries two days for a
    single-day request is not refused; the fetch succeeds with the first
    of them. *)
Lemma two_day_response_is_accepted :
  ~ rejects_other_than_one_day two_day_env demo_self 1.
Proof.
  intros H.
  destruct (H (mkDate 2025 6 23)
              (mkColumns
                 [timestamp_of_date (mkDate 2025 6 23);
                  timestamp_of_date (mkDate 2025 6 23) + 86400]
                 [81; 91]%Q [61; 71]%Q [72; 82]%Q [0; 1]%Q [9; 19]%Q
                 [16; 26]%Q)
              eq_refl eq_refl) as [e He].
  - cbn. discriminate.
  - vm_compute in He. discriminate He.
Qed.

(* ----------------------------------------------------------------- *)
(** ** Failure of a fetch *)

Lemma WeatherMetrics_raise env latitude longitude target_date i e :
  In i range_1_6 ->
  fetch_year env (new_instance latitude longitude target_date) i = Raise e ->
  exists e',
    WeatherMetrics env latitude longitude (d_month target_date)
                   (d_day target_date) (d_year target_date) = Raise e'.
Proof.
  intros Hin He. unfold WeatherMetrics, fill_out_class.
  destruct (get_data_for_date_raise _ _ _ _ Hin He) as [e' He'].
  exists e'. unfold new_instance in He'. now rewrite He'.
Qed.

Lemma WeatherMetrics_five env latitude longitude target_date metrics :
  WeatherMetrics env latitude longitude (d_month target_date)
                 (d_day target_date) (d_year target_date) = Ok metrics ->
  let self := new_instance latitude longitude target_date in
  exists s1 s2 s3 s4 s5,
    fetch_year env self 1 = Ok s1 /\ fetch_year env self 2 = Ok s2 /\
    fetch_year env self 3 = Ok s3 /\ fetch_year env self 4 = Ok s4 /\
    fetch_year env self 5 = Ok s5 /\
    metrics = fill_from self (series_of [s1; s2; s3; s4; s5]).
Proof.
  unfold WeatherMetrics, fill_out_class. fold (new_instance latitude longitude target_date).
  destruct (get_data_for_date env _) as [df|] eqn:E; [|discriminate].
  cbn [Py.bind]. intros [= <-]. cbv zeta.
  destruct (get_data_for_date_five _ _ _ E)
    as (s1 & s2 & s3 & s4 & s5 & -> & H1 & H2 & H3 & H4 & H5).
  now exists s1, s2, s3, s4, s5.
Qed.

(** When the constructor raises, the analysis touches neither the record
    store nor the session state: it shows two error messages, or lets an
    exception that is not an [Exception] pass. *)
Lemma run_weather_analysis_raise env latitude longitude target_date e st :
  WeatherMetrics env latitude longitude (d_month target_date)
                 (d_day target_date) (d_year target_date) = Raise e ->
  run_weather_analysis env latitude longitude target_date st =
  if is_Exception e
  then (Ok tt,
        mkAppState (store st) (session_state st)
          (ui st ++
           [StError ("❌ An error occurred during analysis: " ++ str_exn e)]
           ++ [StError
                 "Please check your internet connection and try again."]))
  else (Raise e, st).
Proof.
  intros H. unfold run_weather_analysis, try_exceptM, bindM, lift_res.
  rewrite H. destruct (is_Exception e); [|reflexivity].
  unfold on_ui, zoom, st_error, modify. cbn. now rewrite <- app_assoc.
Qed.

(** C6: if any one of the five per-year fetches fails, the constructor
    fails and the analysis leaves the record store and the session state
    (which feeds the scorer) as they were; and a summary that is produced
    comes from five successful fetches. *)
Theorem failed_fetch_aborts_analysis env latitude longitude target_date :
  let self := new_instance latitude longitude target_date in
  (forall i e,
     1 <= i <= 5 -> fetch_year env self i = Raise e ->
     (exists e',
        WeatherMetrics env latitude longitude (d_month target_date)
                       (d_day target_date) (d_year target_date) = Raise e') /\
     forall st,
       let st' :=
         snd (run_weather_analysis env latitude longitude target_date st) in
       store st' = store st /\ session_state st' = session_state st) /\
  (forall metrics,
     WeatherMetrics env latitude longitude (d_month target_date)
                    (d_day target_date) (d_year target_date) = Ok metrics ->
     exists s1 s2 s3 s4 s5,
       fetch_year env self 1 = Ok s1 /\ fetch_year env self 2 = Ok s2 /\
       fetch_year env self 3 = Ok s3 /\ fetch_year env self 4 = Ok s4 /\
       fetch_year env self 5 = Ok s5 /\
       metrics = fill_from self (series_of [s1; s2; s3; s4; s5])).
Proof.
  cbv zeta. split.
  - intros i e Hi He.
    assert (Hin : In i range_1_6) by (unfold range_1_6; cbn; lia).
    destruct (WeatherMetrics_raise _ _ _ _ _ _ Hin He) as [e' He'].
    split; [now exists e'|]. intros st.
    rewrite (run_weather_analysis_raise _ _ _ _ _ _ He').
    destruct (is_Exception e'); split; reflexivity.
  - intros metrics. apply WeatherMetrics_five.
Qed.

Lemma failed_fetch_aborts_analysis_witness :
  let st' :=
    snd (run_weather_analysis outage_env (257743 # 10000) (-801937 # 10000)
           (mkDate 2025 6 23) fresh_app) in
  store st' = store fresh_app /\ session_state st' = session_state fresh_app.
Proof.
  apply (proj2 (proj1 (failed_fetch_aborts_analysis outage_env
                         (257743 # 10000) (-801937 # 10000)
                         (mkDate 2025 6 23))
                  3 (OpenMeteoRequestsError "failed to request")
                  ltac:(lia) eq_refl)).
Defined.

(* ----------------------------------------------------------------- *)
(** ** Record store *)

(** One step of each combinator. *)
Lemma bindM_run {S A B} (c : M S A) (k : A -> M S B) (s : S) :
  bindM c k s =
  match c s with
  | (Ok a, s') => k a s'
  | (Raise e, s') => (Raise e, s')
  end.
Proof. reflexivity. Qed.

Lemma try_exceptM_run {S A} (c : M S A) (h : exn -> M S A) (s : S) :
  try_exceptM c h s =
  match c s with
  | (Ok a, s') => (Ok a, s')
  | (Raise e, s') => if is_Exception e then h e s' else (Raise e, s')
  end.
Proof. reflexivity. Qed.

Lemma try_finallyM_close {A} (c : M Store A) (st : Store) :
  try_finallyM c session_close st =
  (fst (c st),
   set_session (fun se => mkSession [] (calls se ++ [CallClose]) true)
               (snd (c st))).
Proof.
  unfold try_finallyM, session_close, modify. now destruct (c st).
Qed.

(** Unfolding of the session operations, one layer at a time. *)
Ltac run_store :=
  repeat progress
    (rewrite ?bindM_run, ?try_finallyM_close, ?try_exceptM_run;
     unfold query_all, query_first, session_commit;
     cbn [new_session session_add session_rollback session_close print
          modify raise ret set_session called commit_fault query_fault
          table next_id session stdout pending calls closed fst snd]).

(** C10: if the commit inside [insert_data] fails, the transaction is
    rolled back and the exception reaches the caller, the table being as
    before; a successful commit appends the row; and on both paths, as on
    every other, the session ends closed. *)
Theorem insert_data_rolls_back_and_closes (data : WeatherRecord) (st : Store) :
  (forall e,
     commit_fault st = Some e -> is_Exception e = true ->
     fst (insert_data data st) = Raise e /\
     table (snd (insert_data data st)) = table st /\
     next_id (snd (insert_data data st)) = next_id st /\
     pending (session (snd (insert_data data st))) = [] /\
     calls (session (snd (insert_data data st))) =
       [CallAdd; CallCommit; CallRollback; CallClose]) /\
  (commit_fault st = None ->
     fst (insert_data data st) = Ok tt /\
     table (snd (insert_data data st)) = table st ++ [(next_id st, data)] /\
     calls (session (snd (insert_data data st))) =
       [CallAdd; CallCommit; CallClose]) /\
  closed (session (snd (insert_data data st))) = true.
Proof.
  unfold insert_data. rewrite bindM_run. cbn [new_session modify].
  rewrite try_finallyM_close, try_exceptM_run, bindM_run.
  cbn [session_add modify]. unfold session_commit.
  cbn [set_session called commit_fault session pending calls closed table
       next_id query_fault stdout].
  split; [|split].
  - intros e He Hexn. rewrite He, Hexn.
    rewrite bindM_run. cbn. repeat split.
  - intros He. rewrite He. cbn. repeat split.
  - destruct (commit_fault st) as [e|]; [|reflexivity].
    destruct (is_Exception e); reflexivity.
Qed.

Lemma insert_data_rolls_back_and_closes_witness :
  fst (insert_data demo_self locked_store)
    = Raise (SQLAlchemyError "database is locked") /\
  table (snd (insert_data demo_self locked_store)) = [] /\
  table (snd (insert_data demo_self empty_store)) = [(1, demo_self)].
Proof.
  destruct (insert_data_rolls_back_and_closes demo_self locked_store)
    as (Hfail & _ & _).
  destruct (insert_data_rolls_back_and_closes demo_self empty_store)
    as (_ & Hok & _).
  destruct (Hfail _ eq_refl eq_refl) as (Hr & Ht & _).
  destruct (Hok eq_refl) as (_ & Ht' & _).
  repeat split; assumption.
Defined.

(* ----------------------------------------------------------------- *)
(** ** What becomes of caught errors *)

Lemma read_attributes_raises o names e :
  read_attributes o names = Raise e -> is_Exception e = true.
Proof.
  induction names as [|n names IH]; cbn [read_attributes]; [discriminate|].
  destruct (getattr o n) as [v|e0] eqn:G; cbn [Py.bind].
  - destruct (read_attributes o names); cbn [Py.bind]; [discriminate|].
    intros [= <-]. now apply IH.
  - intros [= <-]. clear IH. induction o as [|[k v] o IHo]; cbn in G.
    + now injection G as <-.
    + destruct (String.eqb k n); [discriminate | now apply IHo].
Qed.

Lemma to_csv_not_empty repr cells :
  to_csv repr csv_header cells <> EmptyString.
Proof. unfold to_csv, csv_header. cbn. discriminate. Qed.

(** C8 (as amended): the errors caught in the read paths, in the CSV
    formatter and in the validator are turned into the default answer of
    the function.  A failed read gives [None] from [fetch] and the empty
    list from [get_all_records], as an empty result does, and is told
    apart only by the line printed; a failed CSV formatting gives the
    empty string and an error message, whereas a successful export is
    never empty; an exception inside the validator gives [False] and
    leaves no trace. *)
Theorem caught_errors_become_default_answers :
  (forall st e,
     query_fault st = Some e -> is_Exception e = true ->
     fst (get_all_records st) = Ok [] /\
     stdout (snd (get_all_records st)) =
       stdout st ++ [("Error fetching all records: " ++ str_exn e)%string]) /\
  (forall st,
     query_fault st = None ->
     fst (get_all_records st) = Ok (table st) /\
     stdout (snd (get_all_records st)) = stdout st) /\
  (forall fmt2f fmt_int st m d y e,
     query_fault st = Some e -> is_Exception e = true ->
     fst (fetch fmt2f fmt_int m d y st) = Ok None /\
     stdout (snd (fetch fmt2f fmt_int m d y st)) =
       stdout st ++ [("Error fetching data: " ++ str_exn e)%string]) /\
  (forall fmt2f fmt_int st m d y,
     query_fault st = None ->
     find (fun r => (month (snd r) =? m) && (day (snd r) =? d) &&
                    (year (snd r) =? y)) (table st) = None ->
     fst (fetch fmt2f fmt_int m d y st) = Ok None /\
     stdout (snd (fetch fmt2f fmt_int m d y st)) =
       stdout st ++ ["No data found for the specified date."%string]) /\
  (forall repr o ui e,
     read_attributes o csv_attributes = Raise e ->
     format_weather_data repr o ui =
     (Ok EmptyString,
      ui ++ [StError ("Error formatting data for export: " ++ str_exn e)])) /\
  (forall repr o ui cells,
     read_attributes o csv_attributes = Ok cells ->
     format_weather_data repr o ui = (Ok (to_csv repr csv_header cells), ui) /\
     to_csv repr csv_header cells <> EmptyString) /\
  (forall month day year e,
     validate_date_body month day year = Raise e ->
     validate_date month day year = Ok false).
Proof.
  repeat match goal with |- _ /\ _ => split end.
  - intros st e He Hexn. unfold get_all_records. run_store.
    rewrite He, Hexn. run_store. now split.
  - intros st He. unfold get_all_records. run_store.
    rewrite He. run_store. now split.
  - intros fmt2f fmt_int st m d y e He Hexn. unfold fetch. run_store.
    rewrite He, Hexn. run_store. now split.
  - intros fmt2f fmt_int st m d y He Hfind. unfold fetch. run_store.
    rewrite He, Hfind. run_store. now split.
  - intros repr o ui e He.
    unfold format_weather_data, try_exceptM, bindM, lift_res.
    rewrite He, (read_attributes_raises _ _ _ He). reflexivity.
  - intros repr o ui cells Hc. split; [|apply to_csv_not_empty].
    unfold format_weather_data, try_exceptM, bindM, lift_res.
    now rewrite Hc.
  - intros month day year e He. unfold validate_date. rewrite He.
    apply validate_date_body_raises in He. now subst e.
Qed.

Lemma caught_errors_become_default_answers_witness :
  fst (get_all_records unreadable_store) = Ok [] /\
  fst (get_all_records empty_store) = Ok [] /\
  format_weather_data (fun _ => "0"%string) [] [] =
    (Ok EmptyString,
     [StError ("Error formatting data for export: " ++
               "'SimpleWeatherData' object has no attribute 'latitude'")]) /\
  validate_date (PyStr "June") (PyInt 23) (PyInt 2025) = Ok false.
Proof.
  pose proof caught_errors_become_default_answers
    as (Hfail & Hread & _ & _ & Hfmt & _ & Hval).
  split; [|split; [|split]].
  - exact (proj1 (Hfail unreadable_store _ eq_refl eq_refl)).
  - exact (proj1 (Hread empty_store eq_refl)).
  - exact (Hfmt (fun _ => "0"%string) [] [] _ eq_refl).
  - exact (Hval (PyStr "June") (PyInt 23) (PyInt 2025) TypeError eq_refl).
Defined.

(** C8, as stated, fails: the caller of [get_all_records] receives the
    empty list from a failed read as from an empty table, and an exception
    inside [validate_date] ends in the plain [False] of an invalid date. *)
Lemma caught_errors_not_distinguishable :
  ~ read_failure_distinguishable /\ ~ validator_failure_distinguishable.
Proof.
  split.
  - intros H.
    apply (H unreadable_store empty_store
             (SQLAlchemyError "no such table: weather_data"));
      reflexivity.
  - intros H.
    apply (H (PyStr "June") (PyInt 23) (PyInt 2025) TypeError); reflexivity.
Qed.

(* ----------------------------------------------------------------- *)
(** ** The scenarios, run *)

Example leap_years :
  isleap (PyInt 2000) = Ok true /\ isleap (PyInt 1900) = Ok false /\
  isleap (PyInt 2024) = Ok true /\ isleap (PyInt 2023) = Ok false.
Proof. repeat split; reflexivity. Qed.

(** A completed analysis stores one row, fills the session state and asks
    for a rerun. *)
Example analysis_of_demo :
  let m := fill_from demo_self
             (series_of (map demo_sample [2025; 2024; 2023; 2022; 2021])) in
  let out := run_weather_analysis demo_env (257743 # 10000)
               (-801937 # 10000) (mkDate 2025 6 23) fresh_app in
  fst out = Raise RerunException /\
  table (store (snd out)) = [(1, m)] /\
  session_state (snd out) = mkSessionState true (Some m) (Some m) /\
  ui (snd out) = [StSuccess "✅ Analysis complete!"].
Proof. vm_compute. repeat split; reflexivity. Qed.

(** The object built from the stored dict has every attribute the CSV
    formatter reads. *)
Lemma export_reads_every_attribute (w : WeatherRecord) :
  read_attributes (SimpleWeatherData w) csv_attributes =
  Ok [PyFloat (latitude w); PyFloat (longitude w); PyInt (month w);
      PyInt (day w); PyInt (year w); PyFloat (avg_temp w);
      PyFloat (min_temp w); PyFloat (max_temp w); PyFloat (avg_wind w);
      PyFloat (min_wind w); PyFloat (max_wind w); PyFloat (sum_precip w);
      PyFloat (min_precip w); PyFloat (max_precip w)].
Proof. reflexivity. Qed.

(** The validator gates the analysis: behind the button an invalid date
    gets an error message and nothing else happens. *)
Lemma invalid_date_is_not_analysed env lat lon target_date st :
  valid_dateb (d_month target_date) (d_day target_date) (d_year target_date)
    = false ->
  analyze_clicked env (Some lat) (Some lon) target_date st =
  (Ok tt,
   mkAppState (store st) (session_state st)
     (ui st ++ [StError "Invalid date selected. Please check your input."])).
Proof.
  intros H. unfold analyze_clicked. rewrite bindM_run.
  unfold lift_res. rewrite validate_date_int, H. reflexivity.
Qed.

Lemma valid_date_is_analysed env lat lon target_date st :
  valid_dateb (d_month target_date) (d_day target_date) (d_year target_date)
    = true ->
  analyze_clicked env (Some lat) (Some lon) target_date st =
  run_weather_analysis env lat lon target_date st.
Proof.
  intros H. unfold analyze_clicked. rewrite bindM_run.
  unfold lift_res. rewrite validate_date_int, H. reflexivity.
Qed.

(** The calendar conversions agree with the epoch. *)
Example timestamps :
  timestamp_of_date (mkDate 1970 1 1) = 0 /\
  timestamp_of_date (mkDate 2025 6 23) = 1750636800 /\
  timestamp_of_date (mkDate 2024 2 29) = 1709164800 /\
  timestamp_of_date (mkDate 1940 1 1) = -946771200 /\
  date_of_timestamp 1750636800 = mkDate 2025 6 23 /\
  date_of_timestamp 1709164800 = mkDate 2024 2 29 /\
  date_of_timestamp (-946771200) = mkDate 1940 1 1.
Proof. repeat split; reflexivity. Qed.

(** 29 February 2024 passes the validator, and its analysis stops at the
    date of 2025. *)
Example leap_day_of_demo :
  validate_date (PyInt (month leap_self)) (PyInt (day leap_self))
                (PyInt (year leap_self)) = Ok true /\
  get_data_for_date demo_env leap_self = Raise ValueError.
Proof. split; reflexivity. Qed.

(* ================================================================= *)
(** * Further properties of the code *)

(* ----------------------------------------------------------------- *)
(** ** Recommendations *)

Lemma favorable_text_fresh :
  ~ In favorable_text
      [hot_text; cool_text; high_wind_text; moderate_wind_text; rain_text;
       some_rain_text; variation_text].
Proof.
  intros H. cbn [In] in H.
  repeat (destruct H as [H | H];
          [apply String.eqb_eq in H; vm_compute in H; discriminate H|]).
  exact H.
Qed.

Lemma recommendations_shape (w : WeatherRecord) :
  (1 <= List.length (get_weather_recommendations w) <= 4)%nat /\
  (In favorable_text (get_weather_recommendations w) <-> quiet w) /\
  (In favorable_text (get_weather_recommendations w) ->
   get_weather_recommendations w = [favorable_text]).
Proof.
  pose proof favorable_text_fresh as Hfresh.
  unfold get_weather_recommendations, quiet, float_0_1.
  rewrite !gt_dec, !lt_dec.
  generalize (float_sub (max_temp w) (min_temp w)); intros range.
  repeat match goal with
         | |- context [Qlt_le_dec ?a ?b] => destruct (Qlt_le_dec a b)
         end; cbn [app List.length];
    (split; [lia|]);
    (split; [split; [intros H | intros H] | intros H]);
    try reflexivity;
    try (left; reflexivity);
    try (repeat split; lra);
    try (exfalso; apply Hfresh; cbn [In] in H |- *; tauto);
    try (exfalso; lra).
Qed.

(** [get_weather_recommendations] returns between one and four lines; the
    line about favorable conditions is returned exactly when the average
    temperature is within [65,85], the maximum wind at most 10, the
    precipitation at most 0.1 and the temperature range at most 20, and
    then it is the only line. *)
Theorem recommendations_one_to_four (w : WeatherRecord) :
  (1 <= List.length (get_weather_recommendations w) <= 4)%nat /\
  (In favorable_text (get_weather_recommendations w) <-> quiet w) /\
  (In favorable_text (get_weather_recommendations w) ->
   get_weather_recommendations w = [favorable_text]).
Proof. exact (recommendations_shape w). Qed.

Lemma recommendations_one_to_four_witness :
  get_weather_recommendations (summary_of 75 5 0) = [favorable_text].
Proof.
  apply (proj2 (proj2 (recommendations_one_to_four (summary_of 75 5 0)))).
  left. reflexivity.
Defined.

(* ----------------------------------------------------------------- *)
(** ** The three assessments against each other *)

Lemma high_level_risk (w : WeatherRecord) :
  level (calculate_weather_risk w) = "High"%string <-> 4 <= risk_factors w.
Proof.
  unfold calculate_weather_risk. rewrite risk_after_precip_eq.
  destruct (4 <=? risk_factors w) eqn:E4.
  - apply Z.leb_le in E4. cbn. tauto.
  - apply Z.leb_gt in E4.
    destruct (2 <=? risk_factors w); cbn; split;
      try discriminate; intros; lia.
Qed.

Lemma low_level_risk (w : WeatherRecord) :
  level (calculate_weather_risk w) = "Low"%string <-> risk_factors w < 2.
Proof.
  unfold calculate_weather_risk. rewrite risk_after_precip_eq.
  destruct (4 <=? risk_factors w) eqn:E4.
  - apply Z.leb_le in E4. cbn. split; [discriminate | lia].
  - destruct (2 <=? risk_factors w) eqn:E2; cbn.
    + apply Z.leb_le in E2. split; [discriminate | lia].
    + apply Z.leb_gt in E2. tauto.
Qed.

Lemma tempDeduction_nonneg (w : WeatherRecord) : 0 <= tempDeduction w.
Proof.
  unfold tempDeduction.
  repeat match goal with
         | |- context [Qlt_le_dec ?a ?b] => destruct (Qlt_le_dec a b)
         end; lia.
Qed.

(** A "High" risk and a favorable outlook never meet: when
    [calculate_weather_risk] answers "High", the recommendations do not
    contain the line about favorable conditions and the suitability score
    is at most 80. *)
Theorem high_risk_is_never_favorable (w : WeatherRecord) :
  level (calculate_weather_risk w) = "High"%string ->
  ~ In favorable_text (get_weather_recommendations w) /\
  calculate_weather_suitability_score w <= 80.
Proof.
  intros H. apply high_level_risk in H.
  assert (Hdeduct : 20 <= windDeduction w + precipDeduction w /\
                    ((10 < max_wind w)%Q \/ (float_0_1 < sum_precip w)%Q)).
  { revert H.
    unfold risk_factors, tier, windDeduction, precipDeduction, float_0_1.
    repeat match goal with
           | |- context [Qlt_le_dec ?a ?b] => destruct (Qlt_le_dec a b)
           end; intros H;
      (split; [lia | first [left; lra | right; lra | exfalso; lia]]). }
  destruct Hdeduct as [Hd Hloud]. split.
  - intros Hin.
    apply (proj1 (proj1 (proj2 (recommendations_shape w)))) in Hin.
    unfold quiet in Hin. destruct Hloud; lra.
  - unfold calculate_weather_suitability_score.
    rewrite score_after_precip_eq.
    pose proof (tempDeduction_nonneg w). lia.
Qed.

Lemma high_risk_is_never_favorable_witness :
  ~ In favorable_text (get_weather_recommendations stormy) /\
  calculate_weather_suitability_score stormy <= 80.
Proof.
  apply (high_risk_is_never_favorable stormy). reflexivity.
Defined.

(* ----------------------------------------------------------------- *)
(** ** Monotonicity of the scores *)

Lemma tier_monotone (x x' upper lower : Q) :
  (x <= x')%Q -> (lower <= upper)%Q -> tier x upper lower <= tier x' upper lower.
Proof.
  intros Hx Hlu. unfold tier.
  repeat match goal with
         | |- context [Qlt_le_dec ?a ?b] => destruct (Qlt_le_dec a b)
         end; try lia; exfalso; lra.
Qed.

(** Worse extremes never lower the risk: with a higher maximum
    temperature, maximum wind and total precipitation the accumulated risk
    is at least as large, a "High" stays "High", and a "Low" can only come
    from a "Low". *)
Theorem risk_grows_with_extremes (w w' : WeatherRecord) :
  (max_temp w <= max_temp w')%Q ->
  (max_wind w <= max_wind w')%Q ->
  (sum_precip w <= sum_precip w')%Q ->
  risk_after_precip w <= risk_after_precip w' /\
  (level (calculate_weather_risk w) = "High"%string ->
   level (calculate_weather_risk w') = "High"%string) /\
  (level (calculate_weather_risk w') = "Low"%string ->
   level (calculate_weather_risk w) = "Low"%string).
Proof.
  intros Ht Hw Hp.
  assert (H : risk_factors w <= risk_factors w').
  { unfold risk_factors.
    pose proof (tier_monotone _ _ 90 85 Ht ltac:(lra)).
    pose proof (tier_monotone _ _ 25 15 Hw ltac:(lra)).
    pose proof (tier_monotone _ _ 1 (1 # 2) Hp ltac:(lra)). lia. }
  rewrite !risk_after_precip_eq, !high_level_risk, !low_level_risk. lia.
Qed.

Lemma risk_grows_with_extremes_witness :
  risk_after_precip (extremes 80 5 0) <= risk_after_precip (extremes 95 30 2).
Proof.
  apply (risk_grows_with_extremes (extremes 80 5 0) (extremes 95 30 2));
    cbn; lra.
Defined.

Lemma tempDeduction_same (w w' : WeatherRecord) :
  (avg_temp w == avg_temp w')%Q -> tempDeduction w = tempDeduction w'.
Proof.
  intros H. unfold tempDeduction.
  repeat match goal with
         | |- context [Qlt_le_dec ?a ?b] => destruct (Qlt_le_dec a b)
         end; try reflexivity; exfalso; lra.
Qed.

Lemma windDeduction_monotone (w w' : WeatherRecord) :
  (max_wind w <= max_wind w')%Q -> windDeduction w <= windDeduction w'.
Proof.
  intros H. unfold windDeduction.
  repeat match goal with
         | |- context [Qlt_le_dec ?a ?b] => destruct (Qlt_le_dec a b)
         end; try lia; exfalso; lra.
Qed.

Lemma precipDeduction_monotone (w w' : WeatherRecord) :
  (sum_precip w <= sum_precip w')%Q -> precipDeduction w <= precipDeduction w'.
Proof.
  intros H. unfold precipDeduction, float_0_1.
  repeat match goal with
         | |- context [Qlt_le_dec ?a ?b] => destruct (Qlt_le_dec a b)
         end; try lia; exfalso; lra.
Qed.

(** More wind or more precipitation never raises the suitability score:
    at equal average temperature, a summary with at least as much maximum
    wind and total precipitation scores at most as high. *)
Theorem score_falls_with_wind_and_precipitation (w w' : WeatherRecord) :
  (avg_temp w == avg_temp w')%Q ->
  (max_wind w <= max_wind w')%Q ->
  (sum_precip w <= sum_precip w')%Q ->
  calculate_weather_suitability_score w'
  <= calculate_weather_suitability_score w.
Proof.
  intros Ht Hw Hp. unfold calculate_weather_suitability_score.
  rewrite !score_after_precip_eq, (tempDeduction_same _ _ Ht).
  pose proof (windDeduction_monotone _ _ Hw).
  pose proof (precipDeduction_monotone _ _ Hp). lia.
Qed.

Lemma score_falls_with_wind_and_precipitation_witness :
  calculate_weather_suitability_score (summary_of 75 30 2)
  <= calculate_weather_suitability_score (summary_of 75 5 0).
Proof.
  apply (score_falls_with_wind_and_precipitation
           (summary_of 75 5 0) (summary_of 75 30 2)); cbn; lra.
Defined.

(* ----------------------------------------------------------------- *)
(** ** Order and bounds of the statistics *)

Lemma Series_min_le_max (l : list Q) :
  l <> [] -> (Series_min l <= Series_max l)%Q.
Proof.
  intros Hl.
  destruct (Series_min_is_min l Hl) as [Hmin _].
  destruct (Series_max_is_max l Hl) as [Hmax _].
  destruct l as [|x l]; [congruence|].
  inversion Hmin; subst. inversion Hmax; subst.
  eapply Qle_trans; eassumption.
Qed.

(** In every summary that [fill_out_class] produces, the minimum wind is at
    most the maximum wind and the minimum daily precipitation at most the
    maximum daily precipitation, and each of the four is one of the five
    values observed. *)
Theorem wind_and_precipitation_statistics_consistent env self m :
  fill_out_class env self = Ok m ->
  exists s1 s2 s3 s4 s5,
    let rows := [s1; s2; s3; s4; s5] in
    get_data_for_date env self = Ok (series_of rows) /\
    (min_wind m <= max_wind m)%Q /\
    (min_precip m <= max_precip m)%Q /\
    Exists (fun y => (min_wind m == y)%Q) (map s_wind_speed_max rows) /\
    Exists (fun y => (max_wind m == y)%Q) (map s_wind_speed_max rows) /\
    Exists (fun y => (min_precip m == y)%Q) (map s_precipitation rows) /\
    Exists (fun y => (max_precip m == y)%Q) (map s_precipitation rows).
Proof.
  unfold fill_out_class.
  destruct (get_data_for_date env self) as [df|] eqn:E; [|discriminate].
  cbn [Py.bind]. intros [= <-].
  destruct (get_data_for_date_five _ _ _ E)
    as (s1 & s2 & s3 & s4 & s5 & -> & _).
  exists s1, s2, s3, s4, s5. cbv zeta.
  set (rows := [s1; s2; s3; s4; s5]).
  assert (Hw : map s_wind_speed_max rows <> []) by discriminate.
  assert (Hp : map s_precipitation rows <> []) by discriminate.
  split; [reflexivity|].
  split; [exact (Series_min_le_max _ Hw)|].
  split; [exact (Series_min_le_max _ Hp)|].
  split; [exact (proj2 (Series_min_is_min _ Hw))|].
  split; [exact (proj2 (Series_max_is_max _ Hw))|].
  split; [exact (proj2 (Series_min_is_min _ Hp))|].
  exact (proj2 (Series_max_is_max _ Hp)).
Qed.

Lemma wind_and_precipitation_statistics_consistent_witness :
  exists m,
    fill_out_class demo_env demo_self = Ok m /\
    (min_wind m <= max_wind m)%Q /\ (min_precip m <= max_precip m)%Q.
Proof.
  exists demo_summary.
  assert (H : fill_out_class demo_env demo_self = Ok demo_summary)
    by (vm_compute; reflexivity).
  split; [exact H|].
  destruct (wind_and_precipitation_statistics_consistent
              demo_env demo_self demo_summary H)
    as (s1 & s2 & s3 & s4 & s5 & _ & H1 & H2 & _).
  split; [exact H1 | exact H2].
Defined.

Lemma is_min_of_unique (x y : Q) (l : list Q) :
  is_min_of x l -> is_min_of y l -> (x == y)%Q.
Proof.
  intros [Hx Ex] [Hy Ey].
  rewrite Forall_forall in Hx, Hy. rewrite Exists_exists in Ex, Ey.
  destruct Ex as (a & Ha & Hxa). destruct Ey as (b & Hb & Hyb).
  apply Qle_antisym.
  - rewrite Hyb. now apply Hx.
  - rewrite Hxa. now apply Hy.
Qed.

Lemma is_max_of_unique (x y : Q) (l : list Q) :
  is_max_of x l -> is_max_of y l -> (x == y)%Q.
Proof.
  intros [Hx Ex] [Hy Ey].
  rewrite Forall_forall in Hx, Hy. rewrite Exists_exists in Ex, Ey.
  destruct Ex as (a & Ha & Hxa). destruct Ey as (b & Hb & Hyb).
  apply Qle_antisym.
  - rewrite Hxa. now apply Hy.
  - rewrite Hyb. now apply Hx.
Qed.

Lemma Series_min_permutation (l l' : list Q) :
  l <> [] -> Permutation l l' -> (Series_min l == Series_min l')%Q.
Proof.
  intros Hl Hp.
  assert (Hl' : l' <> []).
  { intros ->. apply Permutation_sym, Permutation_nil in Hp. contradiction. }
  apply is_min_of_unique with l'; [|now apply Series_min_is_min].
  destruct (Series_min_is_min l Hl) as [Hall Hex]. split.
  - rewrite Forall_forall in *. intros y Hy. apply Hall.
    eapply Permutation_in; [apply Permutation_sym; exact Hp | exact Hy].
  - rewrite Exists_exists in *. destruct Hex as (a & Ha & Hxa).
    exists a. split; [eapply Permutation_in; eassumption | exact Hxa].
Qed.

Lemma Series_max_permutation (l l' : list Q) :
  l <> [] -> Permutation l l' -> (Series_max l == Series_max l')%Q.
Proof.
  intros Hl Hp.
  assert (Hl' : l' <> []).
  { intros ->. apply Permutation_sym, Permutation_nil in Hp. contradiction. }
  apply is_max_of_unique with l'; [|now apply Series_max_is_max].
  destruct (Series_max_is_max l Hl) as [Hall Hex]. split.
  - rewrite Forall_forall in *. intros y Hy. apply Hall.
    eapply Permutation_in; [apply Permutation_sym; exact Hp | exact Hy].
  - rewrite Exists_exists in *. destruct Hex as (a & Ha & Hxa).
    exists a. split; [eapply Permutation_in; eassumption | exact Hxa].
Qed.

(** The six minima and maxima do not depend on the order of the rows of
    the series; the float32 sum, and with it the mean, does: the demo
    series adds up to 0.70000005 inch of precipitation in the order the
    loop assembles it, and to the float32 below it, 0.7, with its last two
    rows exchanged. *)
Theorem extremes_ignore_row_order self (rows rows' : list DailySample) :
  rows <> [] -> Permutation rows rows' ->
  let m := fill_from self (series_of rows) in
  let m' := fill_from self (series_of rows') in
  (min_temp m == min_temp m' /\ max_temp m == max_temp m' /\
   min_wind m == min_wind m' /\ max_wind m == max_wind m' /\
   min_precip m == min_precip m' /\ max_precip m == max_precip m')%Q /\
  (let d := fill_from self
              (series_of (map demo_sample [2025; 2024; 2023; 2022; 2021])) in
   let d' := fill_from self
               (series_of (map demo_sample [2025; 2024; 2023; 2021; 2022])) in
   (sum_precip d == 11744052 # 16777216)%Q /\
   (sum_precip d' == 11744051 # 16777216)%Q /\
   ~ (sum_precip d == sum_precip d')%Q).
Proof.
  intros Hne Hp. cbv zeta.
  assert (Hmap : forall f : DailySample -> Q,
             map f rows <> [] /\ Permutation (map f rows) (map f rows')).
  { intros f. split; [|now apply Permutation_map].
    destruct rows; [congruence | discriminate]. }
  split.
  - cbn [fill_from series_of min_temp max_temp min_wind
         max_wind min_precip max_precip temperature_2m_max
         temperature_2m_min precipitation_sum
         wind_speed_10m_max calc_wind_speed_max].
    repeat split;
      first [ apply Series_min_permutation; apply Hmap
            | apply Series_max_permutation; apply Hmap ].
  - split; [|split]; vm_compute; [reflexivity | reflexivity | discriminate].
Qed.

Lemma extremes_ignore_row_order_witness :
  Qeq (max_wind (fill_from demo_self
         (series_of (map demo_sample [2025; 2024; 2023; 2022; 2021]))))
      (max_wind (fill_from demo_self
         (series_of (map demo_sample [2021; 2022; 2023; 2024; 2025])))).
Proof.
  apply (extremes_ignore_row_order demo_self
           (map demo_sample [2025; 2024; 2023; 2022; 2021])
           (map demo_sample [2021; 2022; 2023; 2024; 2025])).
  - discriminate.
  - apply Permutation_map.
    change [2021; 2022; 2023; 2024; 2025]
      with (rev [2025; 2024; 2023; 2022; 2021]).
    apply Permutation_rev.
Defined.

(* ----------------------------------------------------------------- *)
(** ** Statistics of whole numbers *)

Lemma float32_add_whole (a b : Z) :
  Z.abs (a + b) < 2 ^ 24 ->
  (float32_add (inject_Z a) (inject_Z b) == inject_Z (a + b))%Q.
Proof.
  intros H. unfold float32_add, add.
  rewrite (round_Qeq binary32 _ (inject_Z (a + b)))
    by (rewrite inject_Z_plus; reflexivity).
  apply round_whole; [reflexivity | discriminate | exact H].
Qed.

Lemma fold_float32_add_Qeq (l : list Q) (a a' : Q) :
  (a == a')%Q ->
  (fold_left float32_add l a == fold_left float32_add l a')%Q.
Proof.
  revert a a'. induction l as [|x l IH]; intros a a' E; cbn [fold_left].
  - exact E.
  - apply IH. unfold float32_add, add. apply round_Qeq. now rewrite E.
Qed.

Lemma magnitude_nonneg (zs : list Z) : 0 <= magnitude zs.
Proof.
  induction zs as [|z zs IH]; [reflexivity|].
  change (0 <= Z.abs z + magnitude zs). lia.
Qed.

Lemma Zsum_magnitude (zs : list Z) : Z.abs (Zsum zs) <= magnitude zs.
Proof.
  induction zs as [|z zs IH]; [reflexivity|].
  change (Z.abs (z + Zsum zs) <= Z.abs z + magnitude zs). lia.
Qed.

Lemma fold_float32_add_whole (zs : list Z) (a : Z) :
  Z.abs a + magnitude zs < 2 ^ 24 ->
  (fold_left float32_add (map inject_Z zs) (inject_Z a)
   == inject_Z (a + Zsum zs))%Q.
Proof.
  revert a. induction zs as [|z zs IH]; intros a H.
  - cbn [map fold_left]. change (Zsum []) with 0. now rewrite Z.add_0_r.
  - change (magnitude (z :: zs)) with (Z.abs z + magnitude zs) in H.
    change (Zsum (z :: zs)) with (z + Zsum zs).
    pose proof (magnitude_nonneg zs) as Hm.
    cbn [map fold_left].
    rewrite (fold_float32_add_Qeq _ _ (inject_Z (a + z))).
    + rewrite IH by lia. now rewrite Z.add_assoc.
    + apply float32_add_whole. lia.
Qed.

Lemma Series_sum_whole (zs : list Z) :
  magnitude zs < 2 ^ 24 ->
  (Series_sum (map inject_Z zs) == inject_Z (Zsum zs))%Q.
Proof.
  intros H. unfold Series_sum. change 0%Q with (inject_Z 0).
  now rewrite fold_float32_add_whole by (cbn [Z.abs]; lia).
Qed.

Lemma Series_mean_whole (zs : list Z) (a : Z) :
  zs <> [] -> magnitude zs < 2 ^ 24 ->
  Zsum zs = Z.of_nat (List.length zs) * a ->
  (Series_mean (map inject_Z zs) == inject_Z a)%Q.
Proof.
  intros Hne H Hsum. unfold Series_mean, float32_div, div.
  rewrite length_map.
  assert (Hn : 0 < Z.of_nat (List.length zs))
    by (destruct zs; [congruence | cbn [List.length]; lia]).
  assert (Ha : Z.abs a <= magnitude zs).
  { pose proof (Zsum_magnitude zs) as Hs. rewrite Hsum in Hs. nia. }
  rewrite (round_Qeq binary32 _ (inject_Z a)).
  - apply round_whole; [reflexivity | discriminate |].
    change (precision binary32) with 24. lia.
  - rewrite (Series_sum_whole zs H), Hsum, inject_Z_mult.
    field. intros H0.
    assert (H1 : (inject_Z 0 < inject_Z (Z.of_nat (List.length zs)))%Q)
      by now rewrite <- Zlt_Qlt.
    rewrite H0 in H1. discriminate H1.
Qed.

(** Whole-number observations are summed and averaged without error: when
    the five mean temperatures, the five wind speeds and the five
    precipitation sums are whole numbers (of a total magnitude below 2^24),
    the total precipitation is their exact sum, and an average that is
    itself a whole number is returned exactly.  Five mean temperatures of
    72 average to 72, and 70, 72, 74, 71, 73 to 72. *)
Theorem whole_number_statistics_are_exact self (rows : list DailySample)
    (temps winds precips : list Z) :
  rows <> [] ->
  map s_temperature_mean rows = map inject_Z temps ->
  map s_wind_speed_max rows = map inject_Z winds ->
  map s_precipitation rows = map inject_Z precips ->
  magnitude temps < 2 ^ 24 -> magnitude winds < 2 ^ 24 ->
  magnitude precips < 2 ^ 24 ->
  let m := fill_from self (series_of rows) in
  let n := Z.of_nat (List.length rows) in
  (sum_precip m == inject_Z (Zsum precips))%Q /\
  (forall a, Zsum temps = n * a -> (avg_temp m == inject_Z a)%Q) /\
  (forall a, Zsum winds = n * a -> (avg_wind m == inject_Z a)%Q).
Proof.
  intros Hne Ht Hw Hp Mt Mw Mp. cbv zeta.
  assert (Hlen : forall (f : DailySample -> Q) zs,
             map f rows = map inject_Z zs ->
             List.length rows = List.length zs /\ zs <> []).
  { intros f zs E. apply (f_equal (@List.length Q)) in E.
    rewrite !length_map in E. split; [exact E|].
    intros ->. destruct rows; [congruence | discriminate E]. }
  cbn [fill_from sum_precip avg_temp avg_wind].
  unfold calc_avg_temp, calc_total_precip, series_of.
  cbn [temperature_2m_mean wind_speed_10m_max precipitation_sum].
  rewrite Ht, Hw, Hp.
  split; [now apply Series_sum_whole|]. split; intros a Ha.
  - destruct (Hlen _ _ Ht) as [E Hz]. rewrite E in Ha.
    now apply Series_mean_whole.
  - destruct (Hlen _ _ Hw) as [E Hz]. rewrite E in Ha.
    now apply Series_mean_whole.
Qed.

Lemma whole_number_statistics_are_exact_witness :
  Qeq (avg_temp (fill_from demo_self
         (series_of (map whole_sample [72; 72; 72; 72; 72])))) 72 /\
  Qeq (avg_temp (fill_from demo_self
         (series_of (map whole_sample [70; 72; 74; 71; 73])))) 72.
Proof.
  split.
  - apply (proj1 (proj2 (whole_number_statistics_are_exact demo_self
             (map whole_sample [72; 72; 72; 72; 72])
             [72; 72; 72; 72; 72] [5; 5; 5; 5; 5] [0; 0; 0; 0; 0]
             ltac:(discriminate) eq_refl eq_refl eq_refl
             eq_refl eq_refl eq_refl)) 72).
    reflexivity.
  - apply (proj1 (proj2 (whole_number_statistics_are_exact demo_self
             (map whole_sample [70; 72; 74; 71; 73])
             [70; 72; 74; 71; 73] [5; 5; 5; 5; 5] [0; 0; 0; 0; 0]
             ltac:(discriminate) eq_refl eq_refl eq_refl
             eq_refl eq_refl eq_refl)) 72).
    reflexivity.
Defined.

(* ----------------------------------------------------------------- *)
(** ** How the aggregator and the fetcher fail *)

Lemma fetch_years_first_failure env self before i after e :
  (forall j, In j before -> exists s, fetch_year env self j = Ok s) ->
  fetch_year env self i = Raise e ->
  fetch_years env self (before ++ i :: after) = Raise e.
Proof.
  intros Hbefore He. induction before as [|j before IH]; cbn [app fetch_years].
  - now rewrite He.
  - destruct (Hbefore j (or_introl eq_refl)) as [s ->]. cbn [Py.bind].
    rewrite IH; [reflexivity|]. intros k Hk. apply Hbefore. now right.
Qed.

(** The aggregator reports the failure of the most recent year that
    fails: when the fetches of the years before the [i]-th turn succeed and
    the [i]-th raises, [get_data_for_date] raises that same exception, and
    the remaining years are not looked at. *)
Theorem first_failed_year_is_reported env self i e :
  1 <= i <= 5 ->
  (forall j, 1 <= j < i -> exists s, fetch_year env self j = Ok s) ->
  fetch_year env self i = Raise e ->
  get_data_for_date env self = Raise e.
Proof.
  intros Hi Hprev He. rewrite get_data_for_date_rows. unfold range_1_6.
  assert (Hsplit : exists before after,
             [1; 2; 3; 4; 5] = before ++ i :: after /\
             forall j, In j before -> 1 <= j < i).
  { assert (Hc : i = 1 \/ i = 2 \/ i = 3 \/ i = 4 \/ i = 5) by lia.
    destruct Hc as [-> | [-> | [-> | [-> | ->]]]].
    - exists [], [2; 3; 4; 5]. split; [reflexivity | intros j []].
    - exists [1], [3; 4; 5]. split; [reflexivity | cbn; intros; lia].
    - exists [1; 2], [4; 5]. split; [reflexivity | cbn; intros; lia].
    - exists [1; 2; 3], [5]. split; [reflexivity | cbn; intros; lia].
    - exists [1; 2; 3; 4], []. split; [reflexivity | cbn; intros; lia]. }
  destruct Hsplit as (before & after & -> & Hb).
  rewrite (fetch_years_first_failure env self before i after e);
    [reflexivity | | exact He].
  intros j Hj. apply Hprev. now apply Hb.
Qed.

Lemma first_failed_year_is_reported_witness :
  get_data_for_date outage_env demo_self
  = Raise (OpenMeteoRequestsError "failed to request").
Proof.
  apply (first_failed_year_is_reported outage_env demo_self 3).
  - lia.
  - intros j Hj. assert (Hc : j = 1 \/ j = 2) by lia.
    destruct Hc as [-> | ->]; eexists; vm_compute; reflexivity.
  - reflexivity.
Defined.

(** A target of 29 February can never be analysed: whatever the archive
    answers and whatever the current year, [get_data_for_date] raises,
    because one of the two most recent years has no such day. *)
Theorem leap_day_is_never_analysed env self :
  month self = 2 -> day self = 29 ->
  (exists e, get_data_for_date env self = Raise e) /\
  (exists e, fill_out_class env self = Raise e).
Proof.
  intros Hm Hd.
  destruct (leap_day_target_raises env self Hm Hd) as [e He].
  split; [now exists e|]. exists e. unfold fill_out_class. now rewrite He.
Qed.

Lemma leap_day_is_never_analysed_witness :
  exists e, fill_out_class demo_env leap_self = Raise e.
Proof.
  apply (leap_day_is_never_analysed demo_env leap_self); reflexivity.
Defined.

(** The outcomes of [call_api] on a response that carries the six
    variables asked for.  A failure of the client is passed on; an empty
    list of responses gives [IndexError]; a zero interval gives
    [ZeroDivisionError]; otherwise the call succeeds with the first six
    arrays of the first response as columns, in request order, whatever
    further responses or variables the archive sent and whatever the
    lengths of the arrays. *)
Theorem call_api_outcomes env self dt :
  (forall e, weather_api env (request_for self dt) = Raise e ->
             call_api env self dt dt = Raise e) /\
  (weather_api env (request_for self dt) = Ok [] ->
   call_api env self dt dt = Raise IndexError) /\
  (forall daily rest a b c p w g more,
     weather_api env (request_for self dt) = Ok (daily :: rest) ->
     Variables daily = a :: b :: c :: p :: w :: g :: more ->
     (Interval daily = 0 ->
      call_api env self dt dt = Raise ZeroDivisionError) /\
     (Interval daily <> 0 ->
      exists dates,
        date_range (Time daily) (TimeEnd daily) (Interval daily) = Ok dates /\
        call_api env self dt dt = Ok (mkColumns dates a b c p w g))).
Proof.
  rewrite call_api_read_daily.
  split; [|split].
  - intros e ->. reflexivity.
  - intros ->. reflexivity.
  - intros daily rest a b c p w g more -> Hvars.
    cbn [Py.bind item0]. unfold read_daily, ValuesAsNumpy. rewrite Hvars.
    cbn [nth_error Py.bind]. unfold date_range. split.
    + intros ->. reflexivity.
    + intros Hz. apply Z.eqb_neq in Hz. rewrite Hz.
      eexists. split; reflexivity.
Qed.

Lemma call_api_outcomes_witness :
  call_api two_day_env demo_self (mkDate 2025 6 23) (mkDate 2025 6 23) =
  Ok (mkColumns [1750636800; 1750723200]
        [81; 91]%Q [61; 71]%Q [72; 82]%Q [0; 1]%Q [9; 19]%Q [16; 26]%Q).
Proof.
  pose proof (call_api_outcomes two_day_env demo_self (mkDate 2025 6 23))
    as (_ & _ & Hok).
  destruct (Hok _ [] _ _ _ _ _ _ [] eq_refl eq_refl) as [_ Hnonzero].
  destruct (Hnonzero ltac:(discriminate)) as (dates & Hdates & Hcall).
  injection Hdates as <-. exact Hcall.
Defined.

(* ----------------------------------------------------------------- *)
(** ** The record store: writes and reads together *)

Lemma insert_data_ok (data : WeatherRecord) (st : Store) :
  commit_fault st = None ->
  insert_data data st =
  (Ok tt,
   mkStore (table st ++ [(next_id st, data)]) (next_id st + 1) None
           (query_fault st)
           (mkSession [] [CallAdd; CallCommit; CallClose] true) (stdout st)).
Proof.
  intros He. unfold insert_data. run_store. rewrite He. run_store.
  rewrite <- He. reflexivity.
Qed.

Lemma insert_data_fail (data : WeatherRecord) (st : Store) (e : exn) :
  commit_fault st = Some e ->
  fst (insert_data data st) = Raise e /\
  table (snd (insert_data data st)) = table st /\
  next_id (snd (insert_data data st)) = next_id st /\
  stdout (snd (insert_data data st)) = stdout st.
Proof.
  intros He. unfold insert_data. run_store. rewrite He.
  destruct (is_Exception e); run_store; repeat split.
Qed.

Lemma fetch_result fmt2f fmt_int m d y st :
  query_fault st = None ->
  fst (fetch fmt2f fmt_int m d y st) = Ok (find (on_date m d y) (table st)).
Proof.
  intros He. unfold fetch. run_store. rewrite He.
  change (fun r : Z * WeatherRecord =>
            (month (snd r) =? m) && (day (snd r) =? d) && (year (snd r) =? y))
    with (on_date m d y).
  destruct (find (on_date m d y) (table st)) as [[id w]|]; run_store;
    reflexivity.
Qed.

Lemma fetch_store fmt2f fmt_int m d y st :
  table (snd (fetch fmt2f fmt_int m d y st)) = table st /\
  next_id (snd (fetch fmt2f fmt_int m d y st)) = next_id st /\
  closed (session (snd (fetch fmt2f fmt_int m d y st))) = true /\
  pending (session (snd (fetch fmt2f fmt_int m d y st))) = [].
Proof.
  unfold fetch. run_store.
  destruct (query_fault st) as [e|].
  - destruct (is_Exception e); run_store; repeat split.
  - match goal with
    | |- context [find ?f (table st)] =>
        destruct (find f (table st)) as [[id w]|]
    end; run_store; repeat split.
Qed.

Lemma get_all_records_store st :
  table (snd (get_all_records st)) = table st /\
  next_id (snd (get_all_records st)) = next_id st /\
  closed (session (snd (get_all_records st))) = true /\
  pending (session (snd (get_all_records st))) = [].
Proof.
  unfold get_all_records. run_store.
  destruct (query_fault st) as [e|].
  - destruct (is_Exception e); run_store; repeat split.
  - run_store. repeat split.
Qed.

(** [fetch] and [get_all_records] only read: on every path, found or not,
    failing or not, the table and the id counter are as before, nothing is
    left pending, and the session is closed. *)
Theorem reads_leave_the_store_alone fmt2f fmt_int m d y (st : Store) :
  (table (snd (fetch fmt2f fmt_int m d y st)) = table st /\
   next_id (snd (fetch fmt2f fmt_int m d y st)) = next_id st /\
   closed (session (snd (fetch fmt2f fmt_int m d y st))) = true /\
   pending (session (snd (fetch fmt2f fmt_int m d y st))) = []) /\
  (table (snd (get_all_records st)) = table st /\
   next_id (snd (get_all_records st)) = next_id st /\
   closed (session (snd (get_all_records st))) = true /\
   pending (session (snd (get_all_records st))) = []).
Proof.
  split; [apply fetch_store | apply get_all_records_store].
Qed.

Lemma find_first {A} (f : A -> bool) (l : list A) (x : A) :
  find f l = Some x ->
  exists before after,
    l = before ++ x :: after /\ f x = true /\
    forall y, In y before -> f y = false.
Proof.
  induction l as [|a l IH]; cbn [find]; [discriminate|].
  destruct (f a) eqn:Fa.
  - intros [= <-]. exists [], l. repeat split; trivial. intros y [].
  - intros H. destruct (IH H) as (before & after & -> & Hx & Hb).
    exists (a :: before), after. repeat split; trivial.
    intros y [<- | Hy]; auto.
Qed.

(** [fetch] answers with the stored row of the requested date that was
    inserted first: the row returned is in the table, has the month, day
    and year asked for, and no row before it has; and [None] is returned,
    when the query itself succeeds, exactly when no row has that date. *)
Theorem fetch_returns_first_row_of_date fmt2f fmt_int m d y (st : Store) :
  query_fault st = None ->
  (forall r,
     fst (fetch fmt2f fmt_int m d y st) = Ok (Some r) ->
     month (snd r) = m /\ day (snd r) = d /\ year (snd r) = y /\
     exists before after,
       table st = before ++ r :: after /\
       forall r', In r' before -> on_date m d y r' = false) /\
  (fst (fetch fmt2f fmt_int m d y st) = Ok None <->
   forall r, In r (table st) -> on_date m d y r = false).
Proof.
  intros He. rewrite (fetch_result _ _ _ _ _ _ He). split.
  - intros r [= Hfind].
    destruct (find_first _ _ _ Hfind) as (before & after & Ht & Hr & Hb).
    unfold on_date in Hr. rewrite !andb_true_iff, !Z.eqb_eq in Hr.
    repeat split; try tauto. now exists before, after.
  - split.
    + intros [= Hfind] r Hr. exact (find_none _ _ Hfind r Hr).
    + intros Hnone. destruct (find (on_date m d y) (table st)) as [r|] eqn:F;
        [|reflexivity].
      destruct (find_some _ _ F) as [Hin Hr]. rewrite (Hnone r Hin) in Hr.
      discriminate.
Qed.

Lemma fetch_returns_first_row_of_date_witness :
  fst (fetch (fun _ => EmptyString) (fun _ => EmptyString) 6 23 2024
         one_row_store) = Ok None.
Proof.
  apply (proj2 (fetch_returns_first_row_of_date _ _ 6 23 2024 one_row_store
                  eq_refl)).
  intros r [<- | []]. reflexivity.
Defined.

Lemma find_app_last {A} (f : A -> bool) (l : list A) (x : A) :
  f x = true ->
  find f (l ++ [x]) = Some (match find f l with Some o => o | None => x end).
Proof.
  intros Hx. induction l as [|a l IH]; cbn [app find].
  - now rewrite Hx.
  - destruct (f a); [reflexivity | exact IH].
Qed.

(** Insert, then look up: after a successful [insert_data], [fetch] for
    the date of the inserted row finds a row; it is the inserted one, under
    the id the counter had, when the table held no row of that date, and
    otherwise it is the oldest row of that date, so that a repeated
    analysis of a date is stored but not returned. *)
Theorem insert_then_fetch fmt2f fmt_int (data : WeatherRecord) (st : Store) :
  commit_fault st = None -> query_fault st = None ->
  fst (fetch fmt2f fmt_int (month data) (day data) (year data)
         (snd (insert_data data st))) =
  Ok (Some (match find (on_date (month data) (day data) (year data))
                       (table st) with
            | Some old => old
            | None => (next_id st, data)
            end)).
Proof.
  intros Hc Hq. rewrite (insert_data_ok _ _ Hc). cbn [snd].
  rewrite fetch_result by exact Hq. cbn [table]. f_equal.
  apply find_app_last. unfold on_date. cbn [snd]. now rewrite !Z.eqb_refl.
Qed.

Lemma insert_then_fetch_witness :
  fst (fetch (fun _ => EmptyString) (fun _ => EmptyString) 6 23 2025
         (snd (insert_data (demo_row 2025 6 23) one_row_store)))
  = Ok (Some (1, demo_row 2025 6 23)) /\
  fst (fetch (fun _ => EmptyString) (fun _ => EmptyString) 7 4 2025
         (snd (insert_data (demo_row 2025 7 4) one_row_store)))
  = Ok (Some (2, demo_row 2025 7 4)).
Proof.
  split.
  - exact (insert_then_fetch _ _ (demo_row 2025 6 23) one_row_store
             eq_refl eq_refl).
  - exact (insert_then_fetch _ _ (demo_row 2025 7 4) one_row_store
             eq_refl eq_refl).
Defined.

(** Insert, then list: after a successful [insert_data],
    [get_all_records] returns the rows that were there, in their order,
    followed by the new row. *)
Theorem insert_then_get_all_records (data : WeatherRecord) (st : Store) :
  commit_fault st = None -> query_fault st = None ->
  fst (get_all_records (snd (insert_data data st))) =
  Ok (table st ++ [(next_id st, data)]).
Proof.
  intros Hc Hq. rewrite (insert_data_ok _ _ Hc). cbn [snd].
  unfold get_all_records. run_store. rewrite Hq. run_store. reflexivity.
Qed.

Lemma insert_then_get_all_records_witness :
  fst (get_all_records (snd (insert_data (demo_row 2025 7 4) one_row_store)))
  = Ok [(1, demo_row 2025 6 23); (2, demo_row 2025 7 4)].
Proof.
  exact (insert_then_get_all_records (demo_row 2025 7 4) one_row_store
           eq_refl eq_refl).
Defined.

(** [insert_data] keeps the ids of the table in order: if every stored id
    is below the counter and no id occurs twice, the same holds afterwards,
    whether the commit succeeds or fails, and the rows that were there
    remain, in place, at the head of the table. *)
Theorem insert_data_keeps_ids_fresh (data : WeatherRecord) (st : Store) :
  ids_fresh st ->
  ids_fresh (snd (insert_data data st)) /\
  exists added, table (snd (insert_data data st)) = table st ++ added.
Proof.
  intros [Hlt Hnd]. destruct (commit_fault st) as [e|] eqn:Hc.
  - destruct (insert_data_fail data st e Hc) as (_ & Ht & Hn & _).
    unfold ids_fresh. rewrite Ht, Hn. split; [now split|].
    exists []. now rewrite app_nil_r.
  - rewrite (insert_data_ok _ _ Hc). cbn [snd]. unfold ids_fresh.
    cbn [table next_id]. split; [|now exists [(next_id st, data)]].
    split.
    + apply Forall_app. split.
      * eapply Forall_impl; [|exact Hlt]. cbn. intros; lia.
      * constructor; [cbn; lia | constructor].
    + rewrite map_app. cbn [map fst].
      apply NoDup_app_remove_l with (l := []).
      cbn [app]. apply Permutation_NoDup with (next_id st :: map fst (table st)).
      * apply Permutation_cons_append.
      * constructor; [|exact Hnd]. intros Hin.
        apply in_map_iff in Hin. destruct Hin as (r & Hr & Hin).
        rewrite Forall_forall in Hlt. specialize (Hlt r Hin). lia.
Qed.

Lemma insert_data_keeps_ids_fresh_witness :
  ids_fresh (snd (insert_data (demo_row 2025 7 4) one_row_store)).
Proof.
  apply (insert_data_keeps_ids_fresh (demo_row 2025 7 4) one_row_store).
  split.
  - repeat constructor.
  - cbn. repeat constructor. intros [].
Defined.

(* ----------------------------------------------------------------- *)
(** ** The analysis as a whole *)

Lemma WeatherRecord_eta (m : WeatherRecord) :
  mkWeatherRecord (latitude m) (longitude m) (month m) (day m) (year m)
    (avg_temp m) (min_temp m) (max_temp m) (avg_wind m) (min_wind m)
    (max_wind m) (sum_precip m) (min_precip m) (max_precip m) = m.
Proof. now destruct m. Qed.

(** After the constructor has succeeded, the analysis is the insertion of
    the summary followed by the update of the session state. *)
Lemma run_weather_analysis_ok env latitude longitude target_date m st :
  WeatherMetrics env latitude longitude (d_month target_date)
                 (d_day target_date) (d_year target_date) = Ok m ->
  run_weather_analysis env latitude longitude target_date st =
  match insert_data m (store st) with
  | (Ok _, db) =>
      (Raise RerunException,
       mkAppState db (mkSessionState true (Some m) (Some m))
                  (ui st ++ [StSuccess "✅ Analysis complete!"]))
  | (Raise e, db) =>
      if is_Exception e
      then (Ok tt,
            mkAppState db (session_state st)
              (ui st ++
               [StError ("❌ An error occurred during analysis: " ++
                         str_exn e);
                StError
                  "Please check your internet connection and try again."]))
      else (Raise e, mkAppState db (session_state st) (ui st))
  end.
Proof.
  intros H. unfold run_weather_analysis.
  rewrite try_exceptM_run, bindM_run. unfold lift_res. rewrite H.
  cbv zeta. rewrite WeatherRecord_eta. rewrite bindM_run.
  unfold on_store at 1. unfold zoom at 1.
  destruct (insert_data m (store st)) as [[[]|e] db].
  - unfold set_state, on_ui, zoom, st_success, st_rerun, modify, raise, bindM.
    cbn. reflexivity.
  - destruct (is_Exception e); [|reflexivity].
    unfold on_ui, zoom, st_error, modify, bindM. cbn.
    now rewrite <- app_assoc.
Qed.

(** A completed analysis: when the constructor succeeds and the store
    accepts the commit, [run_weather_analysis] appends exactly one row
    holding the computed summary, puts that same summary in the session
    state as [metrics] and as [weather_data], sets [analysis_complete],
    shows the success message and ends in the rerun request. *)
Theorem completed_analysis_is_stored_and_kept
    env latitude longitude target_date m st :
  WeatherMetrics env latitude longitude (d_month target_date)
                 (d_day target_date) (d_year target_date) = Ok m ->
  commit_fault (store st) = None ->
  let out := run_weather_analysis env latitude longitude target_date st in
  fst out = Raise RerunException /\
  table (store (snd out)) = table (store st) ++ [(next_id (store st), m)] /\
  session_state (snd out) = mkSessionState true (Some m) (Some m) /\
  ui (snd out) = ui st ++ [StSuccess "✅ Analysis complete!"].
Proof.
  intros Hm Hc. cbv zeta. rewrite (run_weather_analysis_ok _ _ _ _ _ _ Hm).
  rewrite (insert_data_ok _ _ Hc). cbn. repeat split.
Qed.

Lemma completed_analysis_is_stored_and_kept_witness :
  exists m,
    table (store (snd (run_weather_analysis demo_env (257743 # 10000)
                         (-801937 # 10000) (mkDate 2025 6 23) fresh_app)))
    = [(1, m)].
Proof.
  exists demo_summary.
  apply (completed_analysis_is_stored_and_kept demo_env (257743 # 10000)
           (-801937 # 10000) (mkDate 2025 6 23) demo_summary fresh_app);
    reflexivity.
Defined.

(** A failed write discards the analysis: when the constructor succeeds
    but the commit raises, [run_weather_analysis] leaves the table and the
    session state as they were, so the computed summary is not shown, and
    reports the exception in two error messages. *)
Theorem failed_write_discards_the_analysis
    env latitude longitude target_date m st e :
  WeatherMetrics env latitude longitude (d_month target_date)
                 (d_day target_date) (d_year target_date) = Ok m ->
  commit_fault (store st) = Some e -> is_Exception e = true ->
  let out := run_weather_analysis env latitude longitude target_date st in
  fst out = Ok tt /\
  table (store (snd out)) = table (store st) /\
  session_state (snd out) = session_state st /\
  ui (snd out) =
    ui st ++
    [StError ("❌ An error occurred during analysis: " ++ str_exn e);
     StError "Please check your internet connection and try again."].
Proof.
  intros Hm Hc Hexn. cbv zeta.
  rewrite (run_weather_analysis_ok _ _ _ _ _ _ Hm).
  destruct (insert_data_fail m (store st) e Hc) as (Hr & Ht & _).
  destruct (insert_data m (store st)) as [r db]. cbn [fst snd] in Hr, Ht.
  subst r. rewrite Hexn. cbn. repeat split. exact Ht.
Qed.

Lemma failed_write_discards_the_analysis_witness :
  session_state
    (snd (run_weather_analysis demo_env (257743 # 10000) (-801937 # 10000)
            (mkDate 2025 6 23)
            (mkAppState locked_store (mkSessionState false None None) [])))
  = mkSessionState false None None.
Proof.
  apply (failed_write_discards_the_analysis demo_env (257743 # 10000)
           (-801937 # 10000) (mkDate 2025 6 23) demo_summary
           (mkAppState locked_store (mkSessionState false None None) [])
           (SQLAlchemyError "database is locked"));
    reflexivity.
Defined.

(** All or nothing: whatever the archive and the store do,
    [run_weather_analysis] either leaves both the table and the session
    state untouched, or appends one row and replaces the session state by
    the completed one holding that same summary. *)
Theorem analysis_is_all_or_nothing env latitude longitude target_date st :
  let out := run_weather_analysis env latitude longitude target_date st in
  (table (store (snd out)) = table (store st) /\
   session_state (snd out) = session_state st) \/
  (exists m,
     WeatherMetrics env latitude longitude (d_month target_date)
                    (d_day target_date) (d_year target_date) = Ok m /\
     table (store (snd out)) = table (store st) ++ [(next_id (store st), m)] /\
     session_state (snd out) = mkSessionState true (Some m) (Some m)).
Proof.
  cbv zeta.
  destruct (WeatherMetrics env latitude longitude (d_month target_date)
              (d_day target_date) (d_year target_date)) as [m|e] eqn:Hm.
  - rewrite (run_weather_analysis_ok _ _ _ _ _ _ Hm).
    destruct (commit_fault (store st)) as [e|] eqn:Hc.
    + left. destruct (insert_data_fail m (store st) e Hc) as (Hr & Ht & _).
      destruct (insert_data m (store st)) as [r db].
      cbn [fst snd] in Hr, Ht. subst r.
      destruct (is_Exception e); cbn; now split.
    + right. exists m. rewrite (insert_data_ok _ _ Hc). cbn. now repeat split.
  - left. rewrite (run_weather_analysis_raise _ _ _ _ _ _ Hm).
    destruct (is_Exception e); cbn; now split.
Qed.

(** Behind the button, a missing coordinate or an invalid date stops the
    analysis before it starts: one error message is shown, and the store
    and the session state are not touched. *)
Theorem analysis_needs_coordinates_and_valid_date
    env (latitude longitude : option Q) target_date st :
  latitude = None \/ longitude = None \/
  valid_dateb (d_month target_date) (d_day target_date) (d_year target_date)
    = false ->
  exists text,
    analyze_clicked env latitude longitude target_date st =
    (Ok tt, mkAppState (store st) (session_state st) (ui st ++ [StError text])).
Proof.
  intros H. unfold analyze_clicked.
  destruct latitude as [lat|], longitude as [lon|];
    try (eexists; reflexivity).
  destruct H as [H | [H | H]]; try discriminate.
  rewrite bindM_run. unfold lift_res. rewrite validate_date_int, H.
  eexists. reflexivity.
Qed.

Lemma analysis_needs_coordinates_and_valid_date_witness :
  exists text,
    analyze_clicked demo_env None (Some 0%Q) (mkDate 2025 6 23) fresh_app =
    (Ok tt, mkAppState (store fresh_app) (session_state fresh_app)
              (ui fresh_app ++ [StError text])).
Proof.
  apply (analysis_needs_coordinates_and_valid_date demo_env None (Some 0%Q)
           (mkDate 2025 6 23) fresh_app).
  left. reflexivity.
Defined.

(* ----------------------------------------------------------------- *)
(** ** CSV export *)

Lemma getattr_raises o n e :
  getattr o n = Raise e -> e = AttributeError n.
Proof.
  induction o as [|[k v] o IH]; cbn [getattr].
  - now intros [= <-].
  - destruct (String.eqb k n); [discriminate | exact IH].
Qed.

(** The export of a summary kept in the session state cannot fail: the
    object that [SimpleWeatherData] builds from the dict has every
    attribute [format_weather_data] reads, so the result is the header and
    one row of fourteen cells, in header order, and no error is shown. *)
Theorem export_of_kept_summary_succeeds
    (repr : pyval -> string) (w : WeatherRecord) (ui : list UiMsg) :
  exists cells,
    format_weather_data repr (SimpleWeatherData w) ui
      = (Ok (to_csv repr csv_header cells), ui) /\
    List.length cells = List.length csv_header /\
    cells =
      [PyFloat (latitude w); PyFloat (longitude w); PyInt (month w);
       PyInt (day w); PyInt (year w); PyFloat (avg_temp w);
       PyFloat (min_temp w); PyFloat (max_temp w); PyFloat (avg_wind w);
       PyFloat (min_wind w); PyFloat (max_wind w); PyFloat (sum_precip w);
       PyFloat (min_precip w); PyFloat (max_precip w)].
Proof.
  eexists. split; [|split; [|reflexivity]]; [|reflexivity].
  unfold format_weather_data. rewrite try_exceptM_run, bindM_run.
  unfold lift_res. now rewrite export_reads_every_attribute.
Qed.

(** When the [SimpleWeatherData] object handed to [format_weather_data]
    lacks attributes, the error message is the prefix of the function
    followed by the interpreter's report of the first attribute missing in
    column order; the result is the empty string, and the columns after it
    are not read. *)
Theorem export_reports_first_missing_attribute
    (repr : pyval -> string) (o : obj) (ui : list UiMsg)
    (before after : list string) (n : string) :
  csv_attributes = before ++ n :: after ->
  (forall k, In k before -> has_attr o k) ->
  ~ has_attr o n ->
  format_weather_data repr o ui =
  (Ok EmptyString,
   ui ++ [StError ("Error formatting data for export: " ++
                   "'SimpleWeatherData' object has no attribute '" ++
                   n ++ "'")]).
Proof.
  intros Hsplit Hbefore Hmissing.
  assert (Hread : read_attributes o csv_attributes
                  = Raise (AttributeError n)).
  { rewrite Hsplit. clear Hsplit.
    induction before as [|k before IH]; cbn [app read_attributes].
    - destruct (getattr o n) as [v|e] eqn:G.
      + exfalso. apply Hmissing. now exists v.
      + now rewrite (getattr_raises _ _ _ G).
    - destruct (Hbefore k (or_introl eq_refl)) as [v ->]. cbn [Py.bind].
      rewrite IH; [reflexivity|]. intros k' Hk'. apply Hbefore. now right. }
  unfold format_weather_data. rewrite try_exceptM_run, bindM_run.
  unfold lift_res. rewrite Hread. reflexivity.
Qed.

Lemma export_reports_first_missing_attribute_witness :
  format_weather_data (fun _ => EmptyString)
    [("latitude", PyFloat 0); ("longitude", PyFloat 0)]%string [] =
  (Ok EmptyString,
   [StError ("Error formatting data for export: " ++
             "'SimpleWeatherData' object has no attribute 'month'")]).
Proof.
  apply (export_reports_first_missing_attribute (fun _ => EmptyString)
           [("latitude", PyFloat 0); ("longitude", PyFloat 0)]%string []
           ["latitude"; "longitude"]%string
           ["day"; "year"; "avg_temp"; "min_temp"; "max_temp"; "avg_wind";
            "min_wind"; "max_wind"; "sum_precip"; "min_precip";
            "max_precip"]%string "month"%string).
  - reflexivity.
  - intros k [<- | [<- | []]]; eexists; reflexivity.
  - intros [v Hv]. discriminate Hv.
Defined.

(* ----------------------------------------------------------------- *)
(** ** The list of stored analyses *)

Lemma date_geb_spec (a b : WeatherRecord) :
  date_geb a b = true <-> date_le b a.
Proof.
  unfold date_geb, date_le.
  rewrite !orb_true_iff, !andb_true_iff, !orb_true_iff, !andb_true_iff,
    !Z.ltb_lt, !Z.eqb_eq, Z.leb_le. tauto.
Qed.

Lemma date_le_total (a b : WeatherRecord) :
  date_geb a b = false -> date_le a b.
Proof.
  intros H. destruct (date_geb b a) eqn:E; [now apply date_geb_spec|].
  exfalso. revert H E. unfold date_geb.
  rewrite !orb_false_iff, !andb_false_iff, !orb_false_iff, !andb_false_iff,
    !Z.ltb_ge, !Z.eqb_neq, !Z.leb_gt. lia.
Qed.

Lemma date_le_trans (a b c : WeatherRecord) :
  date_le a b -> date_le b c -> date_le a c.
Proof. unfold date_le. lia. Qed.

Lemma insert_desc_perm (x : WeatherRecord) (l : list WeatherRecord) :
  Permutation (insert_desc x l) (x :: l).
Proof.
  induction l as [|y l IH]; cbn [insert_desc]; [reflexivity|].
  destruct (date_geb x y); [reflexivity|].
  rewrite IH. apply perm_swap.
Qed.

Lemma order_by_date_desc_perm (l : list WeatherRecord) :
  Permutation (order_by_date_desc l) l.
Proof.
  induction l as [|x l IH]; cbn; [reflexivity|].
  fold (order_by_date_desc l). rewrite insert_desc_perm. now constructor.
Qed.

Lemma insert_desc_sorted (x : WeatherRecord) (l : list WeatherRecord) :
  StronglySorted (fun a b => date_le b a) l ->
  StronglySorted (fun a b => date_le b a) (insert_desc x l).
Proof.
  induction 1 as [|y l Hl IH Hy]; cbn [insert_desc].
  - repeat constructor.
  - destruct (date_geb x y) eqn:E.
    + apply date_geb_spec in E. constructor.
      * now constructor.
      * constructor; [exact E|].
        eapply Forall_impl; [|exact Hy]. cbn. intros b Hb.
        exact (date_le_trans _ _ _ Hb E).
    + apply date_le_total in E. constructor; [exact IH|].
      apply (Permutation_Forall (Permutation_sym (insert_desc_perm x l))).
      now constructor.
Qed.

Lemma order_by_date_desc_sorted (l : list WeatherRecord) :
  StronglySorted (fun a b => date_le b a) (order_by_date_desc l).
Proof.
  induction l as [|x l IH]; cbn; [constructor|].
  now apply insert_desc_sorted.
Qed.

Lemma StronglySorted_split {A} (R : A -> A -> Prop) (l1 l2 : list A) :
  StronglySorted R (l1 ++ l2) ->
  StronglySorted R l1 /\
  forall a b, In a l1 -> In b l2 -> R a b.
Proof.
  induction l1 as [|x l1 IH]; cbn [app].
  - intros _. split; [constructor | intros a b []].
  - intros H. inversion H as [|? ? Hs Hx]; subst.
    destruct (IH Hs) as [Hs1 Hcross]. rewrite Forall_app in Hx.
    destruct Hx as [Hx1 Hx2]. split; [now constructor|].
    intros a b [<- | Ha] Hb.
    + rewrite Forall_forall in Hx2. now apply Hx2.
    + now apply Hcross.
Qed.

(** [show_database_records] shows the rows with the latest target dates:
    when the database can be read, at most ten rows are shown, all of them
    when the table has no more than ten; they come ordered by year, month
    and day, latest first; they are rows of the table; and every row left
    out has a date no later than each row shown.  An empty table gives the
    notice that there are no previous analyses. *)
Theorem recent_analyses_are_the_latest (st : Store) :
  query_fault st = None ->
  exists shown rest,
    Permutation (map snd (table st)) (shown ++ rest) /\
    List.length shown = Nat.min 10 (List.length (table st)) /\
    StronglySorted (fun a b => date_le b a) shown /\
    (forall a b, In a shown -> In b rest -> date_le b a) /\
    show_database_records st =
      Ok (match table st with
          | [] => NoPreviousAnalyses
          | _ :: _ => RecentAnalyses (map select_columns shown)
          end).
Proof.
  intros Hq.
  set (sorted := order_by_date_desc (map snd (table st))).
  pose proof (order_by_date_desc_perm (map snd (table st))) as Hperm.
  pose proof (order_by_date_desc_sorted (map snd (table st))) as Hsorted.
  fold sorted in Hperm, Hsorted.
  exists (firstn 10 sorted), (skipn 10 sorted).
  rewrite <- (firstn_skipn 10 sorted) in Hsorted.
  destruct (StronglySorted_split _ _ _ Hsorted) as [Hs Hcross].
  assert (Hlen : List.length sorted = List.length (table st)).
  { rewrite (Permutation_length Hperm). apply length_map. }
  split; [now rewrite firstn_skipn, Hperm|].
  split; [now rewrite length_firstn, Hlen|].
  split; [exact Hs|]. split; [exact Hcross|].
  unfold show_database_records, recent_query. rewrite Hq. fold sorted.
  cbn [Py.bind].
  destruct (table st) as [|r t] eqn:Ht.
  - reflexivity.
  - destruct sorted as [|x sorted']; [discriminate Hlen|]. reflexivity.
Qed.

Lemma recent_analyses_are_the_latest_witness :
  exists shown,
    show_database_records one_row_store =
      Ok (RecentAnalyses (map select_columns shown)) /\
    List.length shown = 1%nat.
Proof.
  destruct (recent_analyses_are_the_latest one_row_store eq_refl)
    as (shown & rest & _ & Hlen & _ & _ & H).
  exists shown. split; [exact H | exact Hlen].
Defined.

(* ----------------------------------------------------------------- *)
(** ** What a successful fetch was made of *)

Lemma datetime_ok (y m d : Z) (dt : Date) :
  datetime y m d = Ok dt -> dt = mkDate y m d /\ 1 <= y <= 9999.
Proof.
  unfold datetime.
  destruct ((1 <=? y) && (y <=? 9999) && (1 <=? m) && (m <=? 12) &&
            (1 <=? d) && (d <=? days_in_month y m)) eqn:E; [|discriminate].
  intros [= <-]. rewrite !andb_true_iff, !Z.leb_le in E. split; [reflexivity | lia].
Qed.

Lemma date_range_head (start stop freq : Z) (d : Z) (rest : list Z) :
  date_range start stop freq = Ok (d :: rest) -> d = start.
Proof.
  unfold date_range. destruct (freq =? 0); [discriminate|].
  destruct (Z.to_nat (- ((start - stop) / freq))) as [|n]; [discriminate|].
  cbn [seq map]. intros [= <- _]. cbn. lia.
Qed.

(** Behind every sample of the series stands one request: when the fetch
    of the [i]-th turn succeeds, the archive was asked, for the instance's
    coordinates, for the single day made of the year [now_year - i] and
    the month and day of the target, with the six daily fields in their
    fixed order; the sample carries the time base of the first response
    and the first value of its variables 0 to 5, in that order, as maximum,
    minimum and mean temperature, precipitation, wind speed and gusts. *)
Theorem sample_comes_from_the_request_of_its_year env self i s :
  fetch_year env self i = Ok s ->
  exists daily rest a b c p w g,
    weather_api env
      (mkRequest (latitude self) (longitude self)
         (mkDate (now_year env - i) (month self) (day self))
         (mkDate (now_year env - i) (month self) (day self))
         ["temperature_2m_max"; "temperature_2m_min"; "temperature_2m_mean";
          "precipitation_sum"; "wind_speed_10m_max";
          "wind_gusts_10m_max"]%string)
      = Ok (daily :: rest) /\
    s_date s = Time daily /\
    nth_error (Variables daily) 0 = Some (s_temperature_max s :: a) /\
    nth_error (Variables daily) 1 = Some (s_temperature_min s :: b) /\
    nth_error (Variables daily) 2 = Some (s_temperature_mean s :: c) /\
    nth_error (Variables daily) 3 = Some (s_precipitation s :: p) /\
    nth_error (Variables daily) 4 = Some (s_wind_speed_max s :: w) /\
    nth_error (Variables daily) 5 = Some (s_wind_gusts_max s :: g).
Proof.
  unfold fetch_year.
  destruct (datetime _ _ _) as [dt|] eqn:Hdt; [|discriminate].
  apply datetime_ok in Hdt. destruct Hdt as [-> _]. cbn [Py.bind].
  rewrite call_api_read_daily. unfold request_for, daily_fields.
  destruct (weather_api env _) as [[|daily rest]|] eqn:Hapi;
    try discriminate.
  cbn [Py.bind item0]. unfold read_daily, ValuesAsNumpy.
  destruct (nth_error (Variables daily) 0) as [va|] eqn:E0;
    [|discriminate].
  destruct (nth_error (Variables daily) 1) as [vb|] eqn:E1;
    [|discriminate].
  destruct (nth_error (Variables daily) 2) as [vc|] eqn:E2;
    [|discriminate].
  destruct (nth_error (Variables daily) 3) as [vp|] eqn:E3;
    [|discriminate].
  destruct (nth_error (Variables daily) 4) as [vw|] eqn:E4;
    [|discriminate].
  destruct (nth_error (Variables daily) 5) as [vg|] eqn:E5;
    [|discriminate].
  cbn [Py.bind].
  destruct (date_range _ _ _) as [dates|] eqn:Hdr; [|discriminate].
  cbn [Py.bind]. unfold first_day.
  cbn [date temperature_2m_max temperature_2m_min temperature_2m_mean
       precipitation_sum wind_speed_10m_max wind_gusts_10m_max].
  destruct dates as [|d0 dates]; [discriminate|].
  destruct va as [|x a]; [discriminate|].
  destruct vb as [|y b]; [discriminate|].
  destruct vc as [|z c]; [discriminate|].
  destruct vp as [|u p]; [discriminate|].
  destruct vw as [|v w]; [discriminate|].
  destruct vg as [|t g]; [discriminate|].
  cbn [Py.bind item0]. intros [= <-].
  apply date_range_head in Hdr. subst d0.
  exists daily, rest, a, b, c, p, w, g.
  repeat split; solve [reflexivity | assumption].
Qed.

Lemma sample_comes_from_the_request_of_its_year_witness :
  exists daily, s_date (demo_sample 2025) = Time daily.
Proof.
  destruct (sample_comes_from_the_request_of_its_year demo_env demo_self 1
              (demo_sample 2025) eq_refl)
    as (daily & _ & _ & _ & _ & _ & _ & _ & _ & Hdate & _).
  now exists daily.
Defined.

(* ----------------------------------------------------------------- *)
(** ** Whole numbers given as floats *)

Lemma Qle_bool_inject_Z (a b : Z) :
  Qle_bool (inject_Z a) (inject_Z b) = (a <=? b).
Proof. unfold Qle_bool, inject_Z. cbn. now rewrite !Z.mul_1_r. Qed.

Lemma Qeq_bool_inject_Z (a b : Z) :
  Qeq_bool (inject_Z a) (inject_Z b) = (a =? b).
Proof. unfold Qeq_bool, inject_Z. cbn. now rewrite !Z.mul_1_r. Qed.

Lemma float_mod_is_int_mod (y : Z) (n : positive) :
  Qeq_bool
    (inject_Z y - inject_Z (Zpos n)
                  * inject_Z (Qfloor (inject_Z y / inject_Z (Zpos n))))
    (inject_Z 0)
  = (y mod Zpos n =? 0).
Proof.
  assert (Hfloor : Qfloor (inject_Z y / inject_Z (Zpos n)) = y / Zpos n).
  { unfold Qdiv, Qmult, Qinv, inject_Z, Qfloor. cbn.
    now rewrite Z.mul_1_r. }
  rewrite Hfloor. apply eq_true_iff_eq.
  rewrite Qeq_bool_iff, Z.eqb_eq.
  unfold Qminus. rewrite <- inject_Z_mult, <- inject_Z_opp, <- inject_Z_plus.
  rewrite inject_Z_injective, Z.mod_eq by lia. lia.
Qed.

Lemma between_same_number lo v v' hi :
  same_number v v' -> between lo v hi = between lo v' hi.
Proof.
  intros [-> | (z & -> & ->)]; [reflexivity|].
  unfold between, le_int_val, le_val_int.
  now rewrite !Qle_bool_inject_Z.
Qed.

Lemma val_in_same_number v v' l :
  same_number v v' -> val_in v l = val_in v' l.
Proof.
  intros [-> | (z & -> & ->)]; [reflexivity|].
  unfold val_in. induction l as [|x l IH]; cbn [existsb]; [reflexivity|].
  rewrite IH. f_equal. unfold eq_val_int.
  now rewrite Qeq_bool_inject_Z.
Qed.

Lemma isleap_same_number v v' :
  same_number v v' -> isleap v = isleap v'.
Proof.
  intros [-> | (z & -> & ->)]; [reflexivity|].
  unfold isleap, mod_val_int. cbn [Py.bind eq_val_int].
  rewrite !float_mod_is_int_mod. reflexivity.
Qed.

(** A whole number may be given as an [int] or as a float: the validator
    answers the same for 6 and 6.0, in any of its three arguments. *)
Theorem validate_date_takes_whole_floats month month' day day' year year' :
  same_number month month' -> same_number day day' ->
  same_number year year' ->
  validate_date month day year = validate_date month' day' year'.
Proof.
  intros Hm Hd Hy. unfold validate_date, validate_date_body.
  rewrite !(between_same_number _ _ _ _ Hm), !(between_same_number _ _ _ _ Hd),
    !(between_same_number _ _ _ _ Hy), !(val_in_same_number _ _ _ Hm),
    (isleap_same_number _ _ Hy).
  reflexivity.
Qed.

Lemma validate_date_takes_whole_floats_witness :
  validate_date (PyFloat 2) (PyInt 29) (PyFloat 2024) = Ok true.
Proof.
  refine (eq_trans
            (eq_sym (validate_date_takes_whole_floats
                       (PyInt 2) (PyFloat (inject_Z 2)) (PyInt 29) (PyInt 29)
                       (PyInt 2024) (PyFloat (inject_Z 2024)) _ _ _)) _).
  - right. now exists 2.
  - left. reflexivity.
  - right. now exists 2024.
  - reflexivity.
Defined.
